(* ===== verification/_CoqProject ===== *)
-Q . S2P
Prelude.v
Store.v
Utils.v
World.v
Response.v
AuthProvider.v
Toroauth2.v
Resource.v
Grants.v
Server.v
Concurrency.v
