(* ===== verification/Prelude.v ===== *)
(** * A verification development of toroauth2

    toroauth2 is an OAuth 2.0 authorization server for Tornado.  Its parts:

    - [src/toroauth2/provider.py]: the library.  [Provider] builds HTTP
      responses; [AuthorizationProvider] implements the authorization-code
      grant (issuing a code, exchanging it for tokens, refreshing a token)
      and the URI and POST adapters used by the handlers, over eleven hook
      methods a subclass must supply; [ResourceProvider] checks bearer
      tokens on resource requests.
    - [src/provider.py]: [Toroauth2AuthorizationProvider], the subclass that
      supplies the hooks: clients are looked up in a Mongo collection of
      applications, codes and tokens are kept in Redis with expiry times.
    - [src/provider_server.py]: the Tornado handlers [AuthHandler.get] and
      [TokenHandler.post], which build a fresh provider per request and call
      the two adapters.
    - [utils] (the library's helper module, not under [src/]): URL parsing
      and building and the random token generator, modelled from the spec.

    The methods are Tornado coroutines ([@gen.engine]): a coroutine run
    through [gen.Task] delivers its result to a callback, while a coroutine
    called directly returns [None] and runs detached.  An exception raised in
    a detached coroutine, or a callback never called, leaves the HTTP request
    unanswered.  This is the behaviour most of the theorems are about.

    ** Files

    - [Prelude] (this file): Python values and dicts, the exceptions the
      code raises, and the program monad [prog E A] with its interpreter
      [run] against a [Handler].  A program ends in [Done v] (a result
      delivered to the callback or returned), [Raised e] (an exception
      propagates) or [Halted] (the coroutine is finished without calling its
      callback).  Three predicates on programs hold whatever the commands
      answer: [all_calls P p] (every command [p] issues satisfies [P];
      [all_calls_run_inv] turns a per-command invariant into an invariant
      of whole runs), [all_rets Q p] (every value [p] returns satisfies
      [Q]) and [no_halt p] ([p] always returns or raises).
    - [Store]: Module [Redis], the Redis server as the code uses it (GET,
      SET, SETEX, DEL, SADD, SMEMBERS, TTL) with a clock and lazy expiry.
      [exec_refines] proves that it refines a store without time, seen
      through [view]; [exec_ttl_bounded] bounds the lifetime of keys of a
      chosen family.
    - [Utils]: [url_query_params], [build_url], [random_ascii_string].
    - [World]: the world the handlers run in: the Redis store, the
      application collection ([app], [find_app]), the entropy stream the
      generator draws from and the exception log.  [wcmd] lists the commands
      a program issues to the world and [world_handle] executes them.
    - [Response]: Module [Provider], the response builders of [Provider].
    - [AuthProvider]: the hook interface [AuthHooks] (a typeclass; each hook
      takes the way it is invoked, [Direct] or [ViaTask]), the abstract
      hooks of [AuthorizationProvider] ([base_hooks]), and Module
      [AuthorizationProvider] with [get_authorization_code], [get_token],
      [refresh_token] and the two adapters, each written against the
      interface.  [HooksRespect] is the interface's law for store
      invariants: when every hook respects a command discipline, so does
      every operation of the provider (Section [Discipline]).
    - [Toroauth2]: Module [Toroauth2], the hooks of [src/provider.py] as an
      instance [hooks p] of [AuthHooks], with the Redis key builders and the
      proof that they respect the discipline "every code key is written with
      an expiry of at most 60 seconds" ([hooks_code_discipline]).
    - [Resource]: [ResourceProvider.get_authorization] over the interface
      [ResourceHooks] of the two methods a subclass supplies, with
      Python's [str.split()] written out ([py_split]).
    - [Grants]: Module [Grants], the grants served by the concrete provider:
      the behaviour of each entry point on every branch, single use of a
      code, and a reachability relation [reachable] over served requests
      with the 60-second invariant on codes.
    - [Server]: Module [Server], the handlers of [src/provider_server.py]
      and the route table ([application]), with [answer], what the client
      receives from an [@asynchronous] [@gen.engine] handler: 302 or 200
      when it redirects or finishes, 500 when an exception escapes, and
      nothing when it only writes or its task never calls back.
    - [Concurrency]: Module [Concurrency], concurrent requests on the
      IOLoop: a pool of suspended handlers, [resume] (the store answers
      the command one handler waits on, and the handler runs to its next
      yield point) and [schedule], a sequence of resumptions.

    ** What the theorems show

    - Issuing a code ([get_authorization_code_spec]) checks only the
      response type and the client id; the redirect URI and the scope are
      not compared with the registered ones.
    - Exchanging a code ([get_token_exchange]) deletes it and stores an
      access token for 3600 seconds and a refresh token without expiry,
      whatever the grant type, the secret and the redirect URI.  After one
      exchange the code cannot be exchanged again ([exchange_single_use]).
      A token request that cannot exchange never answers: it logs a
      [TypeError] and its callback is never called ([post_data_failure]).
    - Every code key in a reachable world expires within 60 seconds
      ([code_ttl_invariant]), also under every interleaving of concurrent
      requests ([concurrent_code_ttl]), so after 60 seconds without a new
      authorization request no exchange succeeds ([late_exchange_fails]).
    - The code take is a GET followed by a DEL: in every world where a
      code is live, two concurrent exchanges of it both obtain tokens when
      both GETs are answered first ([concurrent_double_exchange]).
    - [refresh_token] never rotates a token: with the provider the handlers
      build it raises, since [self.r] is never set
      ([refresh_token_fresh_provider]), and with any provider it answers
      400 because the directly called coroutine [validate_client_id]
      returns [None] ([refresh_token_never_rotates]).
    - Over HTTP ([Server]): the authorization endpoint always answers, with
      a 500 or a 302 to the redirect URI of the query carrying exactly the
      query's other parameters and a code ([auth_endpoint_answers]), and
      redirects a registered client's request to any URI the query names
      ([auth_endpoint_open_redirect]); the token endpoint answers 200 with
      tokens, 500, or nothing, never an OAuth 400
      ([token_endpoint_answers]).
    - Resource requests ([Resource]): a [Bearer <token>] header hands
      exactly the token to the validator ([get_authorization_bearer]),
      other headers give the defaults ([get_authorization_anonymous]), an
      invalid result carries [access_denied] or no reason
      ([get_authorization_hard_failure]).
    - The code key does not separate client id and code
      ([code_key_collision]).

    ** Modelling choices

    - Lines 27 and 43 of [src/provider.py] are not valid Python; they are
      modelled as [if <cond>: raise Exception], their evident intent.
    - [Grants] serves requests one after another (the sequential behaviour
      of the IOLoop); [Concurrency] interleaves the handlers at their
      yield points ([yield gen.Task] on the asynchronous Redis client or on
      Mongo), any order of the store's answers being a [schedule], and
      proves that one handler alone behaves as in the sequential model
      ([schedule_serial]).
    - Tornado 3 is the version the code is written for ([gen.Return],
      [ReturnValueIgnoredError]): [gen.Task(f, **kw)] asserts that [kw]
      has no key [callback] ([AssertionError]) and calls [f] with [kw] and
      its own [callback=], so a request parameter named [self] makes the
      call raise [TypeError].
    - A dict is an association list in insertion order; Python 2 iterates
      a dict in hash order, so the order of the parameters of a URL built
      by [build_url] may differ from the program's.
    - [json.dumps] and [json.loads] are modelled as the identity on Python
      values: the store holds the value the code serialised.
    - Percent-encoding in [build_url] is not modelled; parameters are
      joined as [key=value].
    - The entropy of [random.choice] is a stream [w_rnd] in the world; a
      witness fixes it.  There is no fuel: every operation is a finite
      program of commands, and [run] recurses on it structurally.

    ** Not modelled

    Connecting to Mongo and Redis, [application.listen] and the IOLoop
    (I/O with no state the program reads back); [logging.info]; HTTP
    header encoding, Tornado's [urljoin] of a relative [Location] and its
    check of header values.  No class of the repository implements the
    hooks of [ResourceProvider], so [Resource] proves its theorems for every
    implementation of them. *)

From stdpp Require Import base strings list gmap pretty.
From Stdlib Require Import ZArith.

Open Scope string_scope.

(** ** Python values

    The program passes Python values around: strings (request parameters,
    tokens), [None], integers ([expires_in]) and dicts (the session data
    stored beside a code or token, the keyword-argument dicts, the JSON
    bodies).  A dict is an association list kept in insertion order with
    at most one binding per key, as [dict.__setitem__] maintains it. *)

#[warnings="-register-all"]
Inductive pyval : Type :=
| PyNone
| PyBool (b : bool)
| PyInt (z : Z)
| PyStr (s : string)
| PyList (l : list pyval)
| PyDict (d : list (string * pyval)).

Abbreviation dict := (list (string * pyval)).

(** [bool(v)], the truth value the code tests with [if v:] and [not v]. *)
Definition truthy (v : pyval) : bool :=
  match v with
  | PyNone => false
  | PyBool b => b
  | PyInt z => negb (Z.eqb z 0)
  | PyStr s => negb (String.eqb s "")
  | PyList l => match l with [] => false | _ => true end
  | PyDict d => match d with [] => false | _ => true end
  end.

(** [v is None]. *)
Definition is_none (v : pyval) : bool :=
  match v with PyNone => true | _ => false end.

(** [v == s] for a string [s]: a value of another type is never equal. *)
Definition py_eq_str (v : pyval) (s : string) : bool :=
  match v with PyStr s' => String.eqb s' s | _ => false end.

(** [repr(v)] (string escapes aside). *)
Fixpoint py_repr (v : pyval) : string :=
  match v with
  | PyNone => "None"
  | PyBool b => if b then "True" else "False"
  | PyInt z => pretty z
  | PyStr s => "'" ++ s ++ "'"
  | PyList l =>
      "[" ++ (fix items (l : list pyval) : string :=
                match l with
                | [] => ""
                | [x] => py_repr x
                | x :: l' => py_repr x ++ ", " ++ items l'
                end) l ++ "]"
  | PyDict d =>
      "{" ++ (fix items (d : list (string * pyval)) : string :=
                match d with
                | [] => ""
                | [(k, x)] => "'" ++ k ++ "': " ++ py_repr x
                | (k, x) :: d' => "'" ++ k ++ "': " ++ py_repr x ++ ", " ++ items d'
                end) d ++ "}"
  end.

(** [str(v)], as used by the ["%s" % v] formatting of the store keys. *)
Definition py_str (v : pyval) : string :=
  match v with PyStr s => s | _ => py_repr v end.

(** [a == b].  [True == 1]; lists compare elementwise; dicts compare as
    maps, whatever the insertion order. *)
Fixpoint py_eq (a b : pyval) : bool :=
  match a, b with
  | PyNone, PyNone => true
  | PyBool x, PyBool y => Bool.eqb x y
  | PyBool x, PyInt z | PyInt z, PyBool x => Z.eqb z (if x then 1 else 0)
  | PyInt x, PyInt y => Z.eqb x y
  | PyStr s, PyStr t => String.eqb s t
  | PyList l1, PyList l2 =>
      (fix go (l1 l2 : list pyval) : bool :=
         match l1, l2 with
         | [], [] => true
         | x :: l1', y :: l2' => py_eq x y && go l1' l2'
         | _, _ => false
         end) l1 l2
  | PyDict d1, PyDict d2 =>
      Nat.eqb (length d1) (length d2) &&
      (fix all (d1 : list (string * pyval)) : bool :=
         match d1 with
         | [] => true
         | (k, x) :: d1' =>
             (fix find (d2 : list (string * pyval)) : bool :=
                match d2 with
                | [] => false
                | (k', y) :: d2' => if String.eqb k k' then py_eq x y else find d2'
                end) d2 && all d1'
         end) d1
  | _, _ => false
  end.

(** *** Dict operations *)

(** [d.get(k)]. *)
Fixpoint dict_get (d : dict) (k : string) : option pyval :=
  match d with
  | [] => None
  | (k', v) :: d' => if String.eqb k k' then Some v else dict_get d' k
  end.

(** [d.get(k, default)]. *)
Definition dict_get_default (d : dict) (k : string) (default : pyval) : pyval :=
  match dict_get d k with Some v => v | None => default end.

(** [k in d]. *)
Definition dict_mem (k : string) (d : dict) : bool :=
  match dict_get d k with Some _ => true | None => false end.

(** [d[k] = v]: replaces the binding in place, or appends a new one. *)
Fixpoint dict_set (d : dict) (k : string) (v : pyval) : dict :=
  match d with
  | [] => [(k, v)]
  | (k', v') :: d' =>
      if String.eqb k k' then (k, v) :: d' else (k', v') :: dict_set d' k v
  end.

(** [d.pop(k)] (the value is not needed by the code). *)
Fixpoint dict_pop (d : dict) (k : string) : dict :=
  match d with
  | [] => []
  | (k', v') :: d' => if String.eqb k k' then d' else (k', v') :: dict_pop d' k
  end.

(** [d.update(u)]: the bindings of [u] in order. *)
Definition dict_update (d u : dict) : dict :=
  fold_left (fun acc kv => dict_set acc kv.1 kv.2) u d.

(** [dict(pairs)]: later pairs override earlier ones. *)
Definition dict_of_list (l : dict) : dict := dict_update [] l.

(** ** Exceptions

    The Python exceptions the code raises or lets through.  [is_standard_error]
    is membership in Python 2's [StandardError], which decides what the
    [except StandardError] clauses of the provider catch. *)

Inductive exn : Type :=
| TypeError (msg : string)
| AttributeError (attr : string)
| NotImplementedError (msg : string)
| ReturnValueIgnoredError (v : pyval)  (** tornado: [@gen.engine] functions cannot return values *)
| PyException                          (** a bare [raise Exception] *)
| DoesNotExist                         (** [Application.DoesNotExist] of the document mapper *)
| ResponseError (msg : string)         (** an error reply of the Redis server *)
| OAuthError (reason : pyval)
| KeyError (key : string)
| IndexError (msg : string)
| AssertionError.

Definition is_type_error (e : exn) : bool :=
  match e with TypeError _ => true | _ => false end.

Definition is_standard_error (e : exn) : bool :=
  match e with
  | TypeError _ | AttributeError _ | NotImplementedError _ | KeyError _ | IndexError _
  | AssertionError => true
  | _ => false
  end.

(** ** Coroutine programs

    A flow of the program is a tree of commands: [Call c k] issues the
    command [c] (a store request, a random draw, a log line) and continues
    with [k] on its answer.  A flow ends by delivering a value to its
    callback ([Ret]), by letting an exception escape ([Raise]), or by
    finishing without ever calling its callback ([Halt]), which a
    [tornado.gen.engine] coroutine does when it swallows an exception:
    whoever waits on it through [gen.Task] then waits forever.  Exceptions
    cross [gen.Task] boundaries as in synchronous code (tornado throws
    them back into the waiting generator), so [bind] propagates them. *)

Inductive prog (E : Type -> Type) (A : Type) : Type :=
| Ret (a : A)
| Raise (e : exn)
| Halt
| Call {X : Type} (c : E X) (k : X -> prog E A).

Arguments Ret {E A} a.
Arguments Raise {E A} e.
Arguments Halt {E A}.
Arguments Call {E A X} c k.

Fixpoint prog_bind {E A B} (p : prog E A) (f : A -> prog E B) : prog E B :=
  match p with
  | Ret a => f a
  | Raise e => Raise e
  | Halt => Halt
  | Call c k => Call c (fun x => prog_bind (k x) f)
  end.

#[export] Instance prog_ret {E} : MRet (prog E) := @Ret E.
#[export] Instance prog_mbind {E} : MBind (prog E) := fun A B f p => prog_bind p f.

(** [try: p except e: h(e)]. *)
Fixpoint catch {E A} (p : prog E A) (h : exn -> prog E A) : prog E A :=
  match p with
  | Ret a => Ret a
  | Raise e => h e
  | Halt => Halt
  | Call c k => Call c (fun x => catch (k x) h)
  end.

(** A coroutine started without a callback: its commands still run, its
    end (value, exception or silence) reaches nobody. *)
Fixpoint detach {E A} (p : prog E A) : prog E unit :=
  match p with
  | Ret _ | Raise _ | Halt => Ret tt
  | Call c k => Call c (fun x => detach (k x))
  end.

Definition trigger {E X} (c : E X) : prog E X := Call c Ret.

(** [if cond: raise e]. *)
Definition raise_if {E} (cond : bool) (e : exn) : prog E unit :=
  if cond then Raise e else Ret tt.

(** *** Running a program against a state *)

(** The meaning of the commands: one atomic step of the environment. *)
Class Handler (E : Type -> Type) (S : Type) :=
  handle : forall {X : Type}, E X -> S -> X * S.

Inductive outcome (A : Type) : Type :=
| Done (a : A)
| Raised (e : exn)
| Halted.

Arguments Done {A} a.
Arguments Raised {A} e.
Arguments Halted {A}.

Section Run.
Context {E : Type -> Type} {S : Type} `{!Handler E S}.

Fixpoint run {A} (p : prog E A) (s : S) : outcome A * S :=
  match p with
  | Ret a => (Done a, s)
  | Raise e => (Raised e, s)
  | Halt => (Halted, s)
  | Call c k => let '(x, s') := handle c s in run (k x) s'
  end.

(** Sequencing of results: what [run] of a [bind] does. *)
Definition and_then {A B} (r : outcome A * S) (f : A -> S -> outcome B * S)
  : outcome B * S :=
  match r with
  | (Done a, s) => f a s
  | (Raised e, s) => (Raised e, s)
  | (Halted, s) => (Halted, s)
  end.

Lemma run_bind {A B} (p : prog E A) (f : A -> prog E B) s :
  run (p ≫= f) s = and_then (run p s) (fun a => run (f a)).
Proof.
  revert s. induction p as [a|e| |X c k IH]; intros s; try reflexivity.
  cbn. destruct (handle c s) as [x s']. apply IH.
Qed.

Lemma run_catch {A} (p : prog E A) (h : exn -> prog E A) s :
  run (catch p h) s =
    match run p s with
    | (Raised e, s') => run (h e) s'
    | r => r
    end.
Proof.
  revert s. induction p as [a|e| |X c k IH]; intros s; try reflexivity.
  cbn. destruct (handle c s) as [x s']. apply IH.
Qed.

(** A flow that ends in [Raise] or [Halt] ends the whole sequence. *)
Lemma and_then_raised {A B} e s (f : A -> S -> outcome B * S) :
  and_then (Raised e, s) f = (Raised e, s).
Proof. reflexivity. Qed.
End Run.

(** *** Command discipline

    [all_calls P p]: every command [p] can issue, whatever the answers,
    satisfies [P].  With a state invariant that every command allowed by
    [P] preserves, [run] preserves it ([all_calls_run_inv]); the
    invariants of the store are proved this way. *)

Fixpoint all_calls {E A} (P : forall X, E X -> Prop) (p : prog E A) : Prop :=
  match p with
  | Call c k => P _ c /\ forall x, all_calls P (k x)
  | _ => True
  end.

Section AllCalls.
Context {E : Type -> Type} (P : forall X, E X -> Prop).

Lemma all_calls_bind {A B} (p : prog E A) (f : A -> prog E B) :
  all_calls P p -> (forall a, all_calls P (f a)) -> all_calls P (p ≫= f).
Proof.
  induction p as [a|e| |X c k IH]; cbn; intros Hp Hf; [apply Hf|done|done|].
  destruct Hp as [Hc Hk]. split; [done|]. intros x. by apply IH.
Qed.

Lemma all_calls_catch {A} (p : prog E A) (h : exn -> prog E A) :
  all_calls P p -> (forall e, all_calls P (h e)) -> all_calls P (catch p h).
Proof.
  induction p as [a|e| |X c k IH]; cbn; intros Hp Hh; [done|apply Hh|done|].
  destruct Hp as [Hc Hk]. split; [done|]. intros x. by apply IH.
Qed.

Lemma all_calls_detach {A} (p : prog E A) : all_calls P p -> all_calls P (detach p).
Proof.
  induction p as [a|e| |X c k IH]; cbn; try done.
  intros [Hc Hk]. split; [done|]. intros x. by apply IH.
Qed.

Lemma all_calls_trigger {X} (c : E X) : P _ c -> all_calls P (trigger c).
Proof. by split. Qed.

Context {S : Type} `{!Handler E S} (Inv : S -> Prop).

Lemma all_calls_run_inv {A} (p : prog E A) s :
  (forall X (c : E X) s, P X c -> Inv s -> Inv (handle c s).2) ->
  all_calls P p -> Inv s -> Inv (run p s).2.
Proof.
  intros Hstep. revert s. induction p as [a|e| |X c k IH]; cbn; intros s Hp Hs; try done.
  destruct Hp as [Hc Hk]. specialize (Hstep X c s Hc Hs).
  destruct (handle c s) as [x s'] eqn:Hh. apply IH; [apply Hk|done].
Qed.
End AllCalls.

(** *** Result discipline

    [all_rets Q p]: every value [p] returns satisfies [Q], whatever the
    commands answer.  It bounds what an operation can deliver to its
    callback over every implementation of the hooks it calls. *)

Fixpoint all_rets {E A} (Q : A -> Prop) (p : prog E A) : Prop :=
  match p with
  | Ret a => Q a
  | Call c k => forall x, all_rets Q (k x)
  | _ => True
  end.

Section AllRets.
Context {E : Type -> Type}.

Lemma all_rets_bind {A B} (Q : B -> Prop) (p : prog E A) (f : A -> prog E B) :
  (forall a, all_rets Q (f a)) -> all_rets Q (p ≫= f).
Proof.
  induction p as [a|e| |X c k IH]; cbn; intros Hf; [apply Hf|done|done|].
  intros x. by apply IH.
Qed.

Lemma all_rets_catch {A} (Q : A -> Prop) (p : prog E A) (h : exn -> prog E A) :
  all_rets Q p -> (forall e, all_rets Q (h e)) -> all_rets Q (catch p h).
Proof.
  induction p as [a|e| |X c k IH]; cbn; intros Hp Hh; [done|apply Hh|done|].
  intros x. by apply IH.
Qed.

Lemma all_rets_mono {A} (Q Q' : A -> Prop) (p : prog E A) :
  (forall a, Q a -> Q' a) -> all_rets Q p -> all_rets Q' p.
Proof.
  induction p as [a|e| |X c k IH]; cbn; intros HQ Hp; [by apply HQ|done|done|].
  intros x. by apply IH.
Qed.

Context {S : Type} `{!Handler E S}.

Lemma all_rets_run {A} (Q : A -> Prop) (p : prog E A) s a s' :
  all_rets Q p -> run p s = (Done a, s') -> Q a.
Proof.
  revert s. induction p as [a'|e| |X c k IH]; cbn; intros s Hp Hr; try discriminate.
  - by injection Hr as -> _.
  - destruct (handle c s) as [x s1]. exact (IH x s1 (Hp x) Hr).
Qed.
End AllRets.

(** *** Programs that end

    [no_halt p]: [p] raises or returns, whatever the commands answer; it
    never finishes without delivering its result. *)

Fixpoint no_halt {E A} (p : prog E A) : Prop :=
  match p with
  | Halt => False
  | Call c k => forall x, no_halt (k x)
  | _ => True
  end.

Section NoHalt.
Context {E : Type -> Type}.

Lemma no_halt_bind {A B} (p : prog E A) (f : A -> prog E B) :
  no_halt p -> (forall a, no_halt (f a)) -> no_halt (p ≫= f).
Proof.
  induction p as [a|e| |X c k IH]; cbn; intros Hp Hf; [apply Hf|done|done|].
  intros x. by apply IH.
Qed.

Lemma no_halt_catch {A} (p : prog E A) (h : exn -> prog E A) :
  no_halt p -> (forall e, no_halt (h e)) -> no_halt (catch p h).
Proof.
  induction p as [a|e| |X c k IH]; cbn; intros Hp Hh; [done|apply Hh|done|].
  intros x. by apply IH.
Qed.

Context {S : Type} `{!Handler E S}.

Lemma no_halt_run {A} (p : prog E A) s : no_halt p -> (run p s).1 <> Halted.
Proof.
  revert s. induction p as [a|e| |X c k IH]; cbn; intros s Hp; try done.
  destruct (handle c s) as [x s1]. exact (IH x s1 (Hp x)).
Qed.
End NoHalt.

(** Solves [no_halt prog] goals by following the program's structure. *)
Ltac no_halt_tac :=
  repeat first
    [ exact I
    | progress intros
    | apply no_halt_bind
    | apply no_halt_catch
    | progress unfold raise_if
    | progress cbn [no_halt mret prog_ret]
    | match goal with |- context [if ?b then _ else _] => destruct b end
    | match goal with |- context [match ?x with _ => _ end] => destruct x end ].

(** ** Shared lemmas on strings and dicts *)

(** stdpp makes [String.append] [simpl never]; its defining equation. *)
Lemma string_app_cons (x : Ascii.ascii) (a b : string) :
  (String x a ++ b)%string = String x (a ++ b)%string.
Proof. reflexivity. Qed.

Lemma string_app_assoc (a b c : string) : ((a ++ b) ++ c)%string = (a ++ (b ++ c))%string.
Proof. induction a as [|x a IH]; [done|]. by rewrite !string_app_cons, IH. Qed.

Lemma string_app_nil_r (a : string) : (a ++ "")%string = a.
Proof. induction a as [|x a IH]; [done|]. by rewrite string_app_cons, IH. Qed.

Lemma streqb_refl (s : string) : String.eqb s s = true.
Proof. apply String.eqb_refl. Qed.

Lemma streqb_neq (s t : string) : s <> t -> String.eqb s t = false.
Proof. intros H. destruct (String.eqb_spec s t); congruence. Qed.

Lemma dict_get_set_eq d k v : dict_get (dict_set d k v) k = Some v.
Proof.
  induction d as [|[k' v'] d IH]; cbn; rewrite ?streqb_refl; [done|].
  destruct (String.eqb_spec k k'); cbn; rewrite ?streqb_refl; [done|].
  rewrite streqb_neq by congruence. exact IH.
Qed.

Lemma dict_get_set_ne d k k' v :
  k <> k' -> dict_get (dict_set d k v) k' = dict_get d k'.
Proof.
  intros Hne. induction d as [|[k0 v0] d IH]; cbn.
  - rewrite streqb_neq by congruence. done.
  - destruct (String.eqb_spec k k0) as [->|]; cbn.
    + rewrite streqb_neq by congruence. done.
    + destruct (String.eqb_spec k' k0); [done|exact IH].
Qed.

(** A dict has each key once: the invariant Python's dict maintains. *)
Definition dict_wf (d : dict) : Prop := NoDup (map fst d).

Lemma dict_get_None_notin d k : ~ In k (map fst d) -> dict_get d k = None.
Proof.
  induction d as [|[k' v'] d IH]; cbn; [done|].
  intros Hn. rewrite streqb_neq by (intros ->; apply Hn; by left).
  apply IH. intros Hin. apply Hn. by right.
Qed.

Lemma dict_get_pop_eq d k : dict_wf d -> dict_get (dict_pop d k) k = None.
Proof.
  unfold dict_wf. induction d as [|[k' v'] d IH]; cbn; intros Hwf; [done|].
  apply NoDup_cons in Hwf as [Hn Hwf].
  destruct (String.eqb_spec k k') as [->|Hne].
  - apply dict_get_None_notin. intros Hin. apply Hn. by apply list_elem_of_In.
  - cbn. rewrite streqb_neq by congruence. by apply IH.
Qed.

Lemma dict_get_pop_ne d k k' :
  k <> k' -> dict_get (dict_pop d k) k' = dict_get d k'.
Proof.
  intros Hne. induction d as [|[k0 v0] d IH]; cbn; [done|].
  destruct (String.eqb_spec k k0) as [->|]; cbn.
  - rewrite streqb_neq by congruence. done.
  - destruct (String.eqb_spec k' k0); [done|exact IH].
Qed.

Create HintDb toro discriminated.
Create Rewrite HintDb toro.
#[export] Hint Rewrite dict_get_set_eq streqb_refl : toro.
#[export] Hint Rewrite dict_get_set_ne dict_get_pop_ne using congruence : toro.
