(* ===== verification/Store.v ===== *)
(** * The Redis server shared by every flow

    [src/provider.py] keeps codes and tokens in Redis, through the
    asynchronous module-level client [r] (tornadoredis) and, in the refresh
    and revocation methods, through a synchronous [self.r].  Both talk to
    one server, modelled here: a keyspace of strings and sets whose entries
    may carry an absolute expiry second, and a clock.  Expiry is lazy, as
    in Redis: an entry past its expiry second stays in the map but no
    command sees it.  [exec] gives each command used by the code
    (GET, SET, SETEX, DEL, SADD, SMEMBERS, TTL) its Redis meaning; the
    stored strings are the [json.dumps] of Python values, and since the
    code reads them back only with [json.loads], the model stores the
    values themselves. *)

From stdpp Require Import base strings list gmap.
From Stdlib Require Import ZArith.
From S2P Require Import Prelude.

Module Redis.

Inductive value : Type :=
| VStr (v : pyval)
| VSet (m : gset string).

Record entry : Type := mkEntry { e_val : value; e_exp : option Z }.

Record store : Type := mkStore { kv : gmap string entry; now : Z }.

(** An entry is visible while the clock is before its expiry second. *)
Definition alive (t : Z) (e : entry) : bool :=
  match e_exp e with None => true | Some x => Z.ltb t x end.

Definition lookup_entry (s : store) (k : string) : option entry :=
  match kv s !! k with
  | Some e => if alive (now s) e then Some e else None
  | None => None
  end.

Definition lookup (s : store) (k : string) : option value :=
  e_val <$> lookup_entry s k.

Definition put (s : store) (k : string) (e : entry) : store :=
  mkStore (<[k := e]> (kv s)) (now s).

Definition remove (s : store) (k : string) : store :=
  mkStore (delete k (kv s)) (now s).

(** The clock advances by [dt] seconds. *)
Definition tick (dt : Z) (s : store) : store := mkStore (kv s) (now s + dt).

Inductive command : Type :=
| GET (k : string)
| SET (k : string) (v : pyval)
| SETEX (k : string) (ttl : Z) (v : pyval)
| DEL (ks : list string)
| SADD (k : string) (ms : list string)
| SMEMBERS (k : string)
| TTL (k : string).

Inductive reply : Type :=
| Bulk (v : option pyval)
| Int (z : Z)
| Members (l : list string)
| Status
| Error (msg : string).

Definition wrongtype : reply :=
  Error "WRONGTYPE Operation against a key holding the wrong kind of value".

(** [DEL k1 k2 ...]: removes each key, counting the visible ones. *)
Fixpoint del_keys (ks : list string) (s : store) : Z * store :=
  match ks with
  | [] => (0%Z, s)
  | k :: ks' =>
      let c := match lookup s k with Some _ => 1%Z | None => 0%Z end in
      let '(n, s') := del_keys ks' (remove s k) in (c + n, s')%Z
  end.

Definition exec (c : command) (s : store) : reply * store :=
  match c with
  | GET k =>
      match lookup s k with
      | None => (Bulk None, s)
      | Some (VStr v) => (Bulk (Some v), s)
      | Some (VSet _) => (wrongtype, s)
      end
  | SET k v => (Status, put s k (mkEntry (VStr v) None))
  | SETEX k ttl v =>
      if Z.leb ttl 0 then (Error "ERR invalid expire time in setex", s)
      else (Status, put s k (mkEntry (VStr v) (Some (now s + ttl)%Z)))
  | DEL ks => let '(n, s') := del_keys ks s in (Int n, s')
  | SADD k ms =>
      match ms with
      | [] => (Error "ERR wrong number of arguments for 'sadd' command", s)
      | _ =>
          match lookup_entry s k with
          | Some (mkEntry (VStr _) _) => (wrongtype, s)
          | Some (mkEntry (VSet m) x) =>
              let m' := list_to_set ms ∪ m in
              (Int (Z.of_nat (size m') - Z.of_nat (size m)), put s k (mkEntry (VSet m') x))
          | None =>
              let m' : gset string := list_to_set ms in
              (Int (Z.of_nat (size m')), put s k (mkEntry (VSet m') None))
          end
      end
  | SMEMBERS k =>
      match lookup s k with
      | None => (Members [], s)
      | Some (VSet m) => (Members (elements m), s)
      | Some (VStr _) => (wrongtype, s)
      end
  | TTL k =>
      match lookup_entry s k with
      | None => (Int (-2)%Z, s)
      | Some e =>
          match e_exp e with
          | None => (Int (-1)%Z, s)
          | Some x => (Int (x - now s)%Z, s)
          end
      end
  end.

(** ** The abstract store: Redis without time

    What a client observes at one instant is a plain map from keys to
    values.  [aexec] is the meaning of the commands on such a map; the
    theorem [exec_refines] says that the lazy-expiry store implements it:
    the reply and the visible keyspace after a command are those of the
    abstract command on the visible keyspace before it. *)

Definition view (s : store) : gmap string value :=
  omap (fun e => if alive (now s) e then Some (e_val e) else None) (kv s).

Fixpoint adel_keys (ks : list string) (m : gmap string value) : Z * gmap string value :=
  match ks with
  | [] => (0%Z, m)
  | k :: ks' =>
      let c := match m !! k with Some _ => 1%Z | None => 0%Z end in
      let '(n, m') := adel_keys ks' (delete k m) in (c + n, m')%Z
  end.

Definition aexec (c : command) (m : gmap string value) : reply * gmap string value :=
  match c with
  | GET k =>
      match m !! k with
      | None => (Bulk None, m)
      | Some (VStr v) => (Bulk (Some v), m)
      | Some (VSet _) => (wrongtype, m)
      end
  | SET k v => (Status, <[k := VStr v]> m)
  | SETEX k ttl v =>
      if Z.leb ttl 0 then (Error "ERR invalid expire time in setex", m)
      else (Status, <[k := VStr v]> m)
  | DEL ks => let '(n, m') := adel_keys ks m in (Int n, m')
  | SADD k ms =>
      match ms with
      | [] => (Error "ERR wrong number of arguments for 'sadd' command", m)
      | _ =>
          match m !! k with
          | Some (VStr _) => (wrongtype, m)
          | Some (VSet m0) =>
              let m' := list_to_set ms ∪ m0 in
              (Int (Z.of_nat (size m') - Z.of_nat (size m0)), <[k := VSet m']> m)
          | None =>
              let m' : gset string := list_to_set ms in
              (Int (Z.of_nat (size m')), <[k := VSet m']> m)
          end
      end
  | SMEMBERS k =>
      match m !! k with
      | None => (Members [], m)
      | Some (VSet m0) => (Members (elements m0), m)
      | Some (VStr _) => (wrongtype, m)
      end
  | TTL _ => (Int (-2)%Z, m)
  end.

(** Commands whose reply does not depend on expiry times. *)
Definition timeless (c : command) : bool :=
  match c with TTL _ => false | _ => true end.

Lemma view_lookup s k : view s !! k = lookup s k.
Proof.
  unfold view, lookup, lookup_entry. rewrite lookup_omap.
  destruct (kv s !! k) as [e|]; cbn; [|done]. by destruct (alive (now s) e).
Qed.

Lemma lookup_entry_lookup s k e : lookup_entry s k = Some e -> lookup s k = Some (e_val e).
Proof. unfold lookup. by intros ->. Qed.

Lemma view_put s k e :
  alive (now s) e = true -> view (put s k e) = <[k := e_val e]> (view s).
Proof.
  intros Ha. apply map_eq. intros i. rewrite view_lookup.
  destruct (decide (k = i)) as [<-|Hne].
  - rewrite lookup_insert_eq. unfold lookup, lookup_entry. cbn.
    by rewrite lookup_insert_eq, Ha.
  - rewrite lookup_insert_ne by done. rewrite view_lookup.
    unfold lookup, lookup_entry. cbn. by rewrite lookup_insert_ne.
Qed.

Lemma view_remove s k : view (remove s k) = delete k (view s).
Proof.
  apply map_eq. intros i. rewrite view_lookup.
  destruct (decide (k = i)) as [<-|Hne].
  - rewrite lookup_delete_eq. unfold lookup, lookup_entry. cbn.
    by rewrite lookup_delete_eq.
  - rewrite lookup_delete_ne by done. rewrite view_lookup.
    unfold lookup, lookup_entry. cbn. by rewrite lookup_delete_ne.
Qed.

Lemma now_remove s k : now (remove s k) = now s.
Proof. reflexivity. Qed.

Lemma del_keys_refines ks s :
  let '(n, s') := del_keys ks s in
  adel_keys ks (view s) = (n, view s') /\ now s' = now s.
Proof.
  revert s. induction ks as [|k ks IH]; intros s; cbn; [done|].
  specialize (IH (remove s k)).
  destruct (del_keys ks (remove s k)) as [n s'].
  rewrite view_lookup, <- view_remove. destruct (adel_keys ks _) as [n' m'].
  destruct IH as [[= -> ->] ->]. done.
Qed.

#[export] Hint Rewrite view_lookup view_remove : toro.

(** Refinement: the timed store implements the abstract one. *)
Theorem exec_refines c s :
  timeless c = true ->
  let '(r, s') := exec c s in
  aexec c (view s) = (r, view s') /\ now s' = now s.
Proof.
  destruct c as [k|k v|k ttl v|ks|k ms|k|k]; intros Ht; cbn -[view put];
    rewrite ?view_lookup; try discriminate.
  - by destruct (lookup s k) as [[]|].
  - rewrite view_put by done. done.
  - destruct (Z.leb_spec ttl 0); [done|].
    rewrite view_put by (cbn; apply Z.ltb_lt; lia). done.
  - pose proof (del_keys_refines ks s) as H.
    destruct (del_keys ks s) as [n s']. destruct H as [-> ->]. done.
  - destruct ms as [|m ms]; [done|].
    unfold lookup. destruct (lookup_entry s k) as [[[v|m0] x]|] eqn:E; cbn -[view put]; [done| |].
    + rewrite view_put; [done|]. unfold lookup_entry in E.
      destruct (kv s !! k) as [e|]; [|done].
      destruct (alive (now s) e) eqn:Ha; [|done]. injection E as ->. exact Ha.
    + rewrite view_put by done. done.
  - by destruct (lookup s k) as [[]|].
Qed.

(** ** Invariant: no set is ever empty

    Redis removes a set when its last member goes and refuses [SADD]
    without members, so an empty set is never stored. *)

Definition wf (s : store) : Prop :=
  forall k e, kv s !! k = Some e -> e_val e <> VSet ∅.

Lemma wf_put s k e : wf s -> e_val e <> VSet ∅ -> wf (put s k e).
Proof.
  intros Hwf He k' e'. cbn. destruct (decide (k = k')) as [<-|].
  - rewrite lookup_insert_eq. by intros [= <-].
  - rewrite lookup_insert_ne by done. apply Hwf.
Qed.

Lemma wf_remove s k : wf s -> wf (remove s k).
Proof.
  intros Hwf k' e'. cbn. destruct (decide (k = k')) as [<-|].
  - by rewrite lookup_delete_eq.
  - rewrite lookup_delete_ne by done. apply Hwf.
Qed.

Lemma wf_del_keys ks s : wf s -> wf (del_keys ks s).2.
Proof.
  revert s. induction ks as [|k ks IH]; intros s Hwf; cbn; [done|].
  specialize (IH (remove s k) (wf_remove s k Hwf)).
  destruct (del_keys ks (remove s k)). exact IH.
Qed.

Lemma list_to_set_cons_nonempty (x : string) (l : list string) (m : gset string) :
  VSet (list_to_set (x :: l) ∪ m) <> VSet ∅.
Proof. intros [= H]. set_solver. Qed.

Theorem exec_wf c s : wf s -> wf (exec c s).2.
Proof.
  intros Hwf. destruct c as [k|k v|k ttl v|ks|k ms|k|k]; cbn.
  - by destruct (lookup s k) as [[]|].
  - by apply wf_put.
  - destruct (Z.leb ttl 0); [done|]. by apply wf_put.
  - pose proof (wf_del_keys ks s Hwf). by destruct (del_keys ks s).
  - destruct ms as [|m ms]; [done|].
    destruct (lookup_entry s k) as [[[v|m0] x]|]; cbn; [done| |];
      apply wf_put; try done; cbn.
    + apply list_to_set_cons_nonempty.
    + intros [= H]. set_solver.
  - by destruct (lookup s k) as [[]|].
  - destruct (lookup_entry s k) as [[? []]|]; done.
Qed.

Lemma tick_wf dt s : wf s -> wf (tick dt s).
Proof. done. Qed.

(** ** Expiry

    A value written by [SETEX k ttl v] is read back for [ttl] seconds and
    is gone from then on, unless the key is written again. *)
Theorem setex_lifetime k ttl v s dt :
  (0 < ttl)%Z -> (0 <= dt)%Z ->
  lookup (tick dt (exec (SETEX k ttl v) s).2) k =
    if Z.ltb dt ttl then Some (VStr v) else None.
Proof.
  intros Httl Hdt. cbn. destruct (Z.leb_spec ttl 0); [lia|].
  unfold lookup, lookup_entry. cbn. rewrite lookup_insert_eq. cbn.
  destruct (Z.ltb_spec (now s + dt) (now s + ttl)), (Z.ltb_spec dt ttl);
    cbn; done || lia.
Qed.

(** ** Reading back *)

Lemma lookup_put_eq s k e :
  alive (now s) e = true -> lookup (put s k e) k = Some (e_val e).
Proof. intros Ha. by rewrite <- view_lookup, view_put, lookup_insert_eq. Qed.

Lemma lookup_put_ne s k k' e : k <> k' -> lookup (put s k e) k' = lookup s k'.
Proof.
  intros Hne. unfold lookup, lookup_entry. cbn. by rewrite lookup_insert_ne.
Qed.

Lemma lookup_remove_eq s k : lookup (remove s k) k = None.
Proof. by rewrite <- view_lookup, view_remove, lookup_delete_eq. Qed.

Lemma lookup_remove_ne s k k' : k <> k' -> lookup (remove s k) k' = lookup s k'.
Proof.
  intros Hne. unfold lookup, lookup_entry. cbn. by rewrite lookup_delete_ne.
Qed.

Lemma lookup_entry_put_eq s k e :
  alive (now s) e = true -> lookup_entry (put s k e) k = Some e.
Proof. intros Ha. unfold lookup_entry. cbn. by rewrite lookup_insert_eq, Ha. Qed.

Lemma lookup_entry_put_ne s k k' e :
  k <> k' -> lookup_entry (put s k e) k' = lookup_entry s k'.
Proof. intros Hne. unfold lookup_entry. cbn. by rewrite lookup_insert_ne. Qed.

Lemma lookup_entry_remove_ne s k k' :
  k <> k' -> lookup_entry (remove s k) k' = lookup_entry s k'.
Proof. intros Hne. unfold lookup_entry. cbn. by rewrite lookup_delete_ne. Qed.

Lemma lookup_entry_alive s k e : lookup_entry s k = Some e -> alive (now s) e = true.
Proof.
  unfold lookup_entry. destruct (kv s !! k); [|done].
  destruct (alive (now s) e0) eqn:Ha; [|done]. by intros [= <-].
Qed.

#[export] Hint Rewrite lookup_put_ne lookup_remove_ne using congruence : toro.
#[export] Hint Rewrite lookup_remove_eq : toro.

(** ** Bounded lifetimes

    [ttl_bounded P b s]: every visible key selected by [P] expires at
    most [b] seconds from now.  It holds as long as the only writes to
    such keys are [SETEX] with a lifetime of at most [b] seconds
    ([bounded_cmd]), and the passing of time keeps it. *)

Definition ttl_bounded (P : string -> bool) (b : Z) (s : store) : Prop :=
  forall k e, P k = true -> kv s !! k = Some e -> alive (now s) e = true ->
    exists t, e_exp e = Some t /\ (t <= now s + b)%Z.

Definition bounded_cmd (P : string -> bool) (b : Z) (c : command) : Prop :=
  match c with
  | SETEX k ttl _ => P k = true -> (ttl <= b)%Z
  | SET k _ | SADD k _ => P k = false
  | _ => True
  end.

Lemma ttl_bounded_remove P b s k : ttl_bounded P b s -> ttl_bounded P b (remove s k).
Proof.
  intros Hb k' e HP. cbn. destruct (decide (k = k')) as [<-|].
  - by rewrite lookup_delete_eq.
  - rewrite lookup_delete_ne by done. by apply Hb.
Qed.

Lemma ttl_bounded_put P b s k e :
  ttl_bounded P b s ->
  (P k = true -> alive (now s) e = true -> exists t, e_exp e = Some t /\ (t <= now s + b)%Z) ->
  ttl_bounded P b (put s k e).
Proof.
  intros Hb He k' e' HP. cbn. destruct (decide (k = k')) as [<-|].
  - rewrite lookup_insert_eq. intros [= <-]. by apply He.
  - rewrite lookup_insert_ne by done. by apply Hb.
Qed.

Lemma ttl_bounded_del_keys P b ks s : ttl_bounded P b s -> ttl_bounded P b (del_keys ks s).2.
Proof.
  revert s. induction ks as [|k ks IH]; intros s Hb; cbn; [done|].
  specialize (IH (remove s k) (ttl_bounded_remove P b s k Hb)).
  destruct (del_keys ks (remove s k)). exact IH.
Qed.

Theorem exec_ttl_bounded P b c s :
  bounded_cmd P b c -> ttl_bounded P b s -> ttl_bounded P b (exec c s).2.
Proof.
  intros Hc Hb. destruct c as [k|k v|k ttl v|ks|k ms|k|k]; cbn in *.
  - by destruct (lookup s k) as [[]|].
  - apply ttl_bounded_put; [done|]. by rewrite Hc.
  - destruct (Z.leb_spec ttl 0); [done|]. apply ttl_bounded_put; [done|].
    intros HP _. exists (now s + ttl)%Z. split; [done|]. specialize (Hc HP). lia.
  - pose proof (ttl_bounded_del_keys P b ks s Hb). by destruct (del_keys ks s).
  - destruct ms as [|m ms]; [done|].
    destruct (lookup_entry s k) as [[[v|m0] x]|]; cbn; [done| |];
      apply ttl_bounded_put; try done; by rewrite Hc.
  - by destruct (lookup s k) as [[]|].
  - destruct (lookup_entry s k) as [[? []]|]; done.
Qed.

Lemma tick_ttl_bounded P b dt s :
  (0 <= dt)%Z -> ttl_bounded P b s -> ttl_bounded P b (tick dt s).
Proof.
  intros Hdt Hb k e HP Hk Ha. cbn in *.
  assert (Ha' : alive (now s) e = true).
  { unfold alive in *. destruct (e_exp e) as [t|]; [|done].
    apply Z.ltb_lt in Ha. apply Z.ltb_lt. lia. }
  destruct (Hb k e HP Hk Ha') as (t & Ht & Hle). exists t. split; [done|lia].
Qed.

(** Once [b] seconds have passed, no key selected by [P] is visible. *)
Theorem ttl_bounded_expired P b s k :
  (0 <= b)%Z -> ttl_bounded P b s -> P k = true -> lookup (tick b s) k = None.
Proof.
  intros Hb0 Hb HP. unfold lookup, lookup_entry. cbn.
  destruct (kv s !! k) as [e|] eqn:Hk; [|done].
  destruct (alive (now s + b) e) eqn:Ha; [|done]. exfalso.
  unfold alive in Ha. destruct (e_exp e) as [t|] eqn:Ht.
  - apply Z.ltb_lt in Ha.
    assert (Ha' : alive (now s) e = true) by (unfold alive; rewrite Ht; apply Z.ltb_lt; lia).
    destruct (Hb k e HP Hk Ha') as (t' & Ht' & Hle). assert (t = t') by congruence. lia.
  - assert (Ha' : alive (now s) e = true) by (unfold alive; by rewrite Ht).
    destruct (Hb k e HP Hk Ha') as (t' & Ht' & _). congruence.
Qed.

(** ** Witnesses *)

Definition demo_store : store := mkStore ∅ 100.

Lemma exec_refines_witness :
  timeless (SADD "s" ["a"; "b"]) = true /\
  (let '(r, s') := exec (SADD "s" ["a"; "b"]) demo_store in
   aexec (SADD "s" ["a"; "b"]) (view demo_store) = (r, view s') /\ now s' = now demo_store).
Proof. split; [reflexivity|]. apply (exec_refines (SADD "s" ["a"; "b"]) demo_store). reflexivity. Defined.

Lemma exec_wf_witness : wf (exec (SADD "s" ["a"]) demo_store).2.
Proof. apply exec_wf. intros k e H. cbn in H. by rewrite lookup_empty in H. Defined.

Lemma setex_lifetime_witness :
  lookup (tick 59 (exec (SETEX "k" 60 PyNone) demo_store).2) "k" = Some (VStr PyNone) /\
  lookup (tick 60 (exec (SETEX "k" 60 PyNone) demo_store).2) "k" = None.
Proof.
  split; [apply (setex_lifetime "k" 60 PyNone demo_store 59)|
          apply (setex_lifetime "k" 60 PyNone demo_store 60)]; lia.
Defined.

End Redis.
