(* ===== verification/Utils.v ===== *)
(** * The [utils] module of the package (not under [src/]; modelled from the spec)

    [toroauth2/provider.py] imports [utils] for three helpers whose source
    is not part of the repository: [random_ascii_string] (the token and
    code generator of spec section 4.4), [url_query_params] (the query
    dict of a URI) and [build_url] (a URI with query parameters merged in,
    [None]-valued ones removed).  They are modelled from the spec with the
    semantics of Python 2's [urlparse] functions they are described by:
    a URI splits at the first ['#'] (fragment) and then at the first ['?']
    (query); a query splits at ['&'] and [';'], empty pieces are skipped,
    each piece splits at its first ['='], and a piece with no ['='] has
    the empty value (blank values are kept).  Percent-encoding and
    decoding are not modelled.  A dict is kept in insertion order, where
    a Python 2 dict iterates in hash order: the parameters of a URL built
    by [build_url] may come in another order than the program's, and the
    theorems that name a built URL state its parameters in the model's
    order. *)

From stdpp Require Import base strings list.
From Stdlib Require Import ZArith Ascii.
From S2P Require Import Prelude.

(** ** String helpers *)

(** [s.split(c, 1)]: the text before the first [c] and, when [c]
    occurs, the text after it. *)
Fixpoint split_once (c : ascii) (s : string) : string * option string :=
  match s with
  | EmptyString => (EmptyString, None)
  | String a s' =>
      if Ascii.eqb a c then (EmptyString, Some s')
      else let '(l, r) := split_once c s' in (String a l, r)
  end.

(** Splitting at every character of [cs]: the pieces, empty ones included. *)
Fixpoint split_on (cs : list ascii) (s : string) : list string :=
  match s with
  | EmptyString => [EmptyString]
  | String a s' =>
      match split_on cs s' with
      | [] => [String a EmptyString]
      | p :: ps => if existsb (Ascii.eqb a) cs then EmptyString :: p :: ps
                   else String a p :: ps
      end
  end.

Fixpoint join (sep : string) (l : list string) : string :=
  match l with
  | [] => ""
  | [x] => x
  | x :: l' => x ++ sep ++ join sep l'
  end.

Definition opt_str (o : option string) : string :=
  match o with Some s => s | None => "" end.

(** ** URIs *)

Record url_parts : Type := UrlParts { u_base : string; u_query : string; u_fragment : string }.

(** [urlparse.urlsplit]: the fragment is split off first, then the query. *)
Definition url_split (u : string) : url_parts :=
  let '(a, frag) := split_once "#" u in
  let '(b, q) := split_once "?" a in
  UrlParts b (opt_str q) (opt_str frag).

(** [urlparse.urlunparse]: ['?'] and ['#'] only before non-empty parts. *)
Definition url_join (p : url_parts) : string :=
  u_base p
  ++ (if String.eqb (u_query p) "" then "" else "?" ++ u_query p)
  ++ (if String.eqb (u_fragment p) "" then "" else "#" ++ u_fragment p).

(** [urlparse.parse_qsl(qs, keep_blank_values=True)]. *)
Definition parse_qsl (qs : string) : list (string * string) :=
  omap (fun piece =>
          if String.eqb piece "" then None
          else let '(n, v) := split_once "=" piece in Some (n, opt_str v))
       (split_on ["&"; ";"]%char qs).

Definition pairs_to_dict (l : list (string * string)) : dict :=
  dict_of_list (map (fun nv => (nv.1, PyStr nv.2)) l).

(** [utils.url_query_params(uri)] = [dict(parse_qsl(urlparse(uri).query, True))]. *)
Definition url_query_params (uri : string) : dict :=
  pairs_to_dict (parse_qsl (u_query (url_split uri))).

(** [urllib.urlencode(d)]: [k=str(v)] joined by ['&']. *)
Definition urlencode (d : dict) : string :=
  join "&" (map (fun kv => kv.1 ++ "=" ++ py_str kv.2) d).

(** [utils.build_url(base, params)]: the query of [base] updated with
    [params], then every key whose value in [params] is [None] removed. *)
Definition build_url (base : string) (params : dict) : string :=
  let p := url_split base in
  let q := dict_update (pairs_to_dict (parse_qsl (u_query p))) params in
  let q := fold_left (fun acc kv => if is_none kv.2 then dict_pop acc kv.1 else acc)
                     params q in
  url_join (UrlParts (u_base p) (urlencode q) (u_fragment p)).

(** ** Token generation

    [utils.random_ascii_string(n)] draws [n] characters uniformly from
    [string.ascii_letters + string.digits] with [random.SystemRandom].
    The entropy source is a stream of naturals; the character drawn is
    the alphabet at the index [x mod 62]. *)

Definition alphabet : string :=
  "abcdefghijklmnopqrstuvwxyzABCDEFGHIJKLMNOPQRSTUVWXYZ0123456789".

Definition alphabet_at (i : nat) : ascii :=
  match String.get (i mod 62) alphabet with Some c => c | None => "a"%char end.

Fixpoint random_ascii_string (rnd : nat -> nat) (n : nat) : string :=
  match n with
  | 0 => EmptyString
  | S n' => String (alphabet_at (rnd 0)) (random_ascii_string (fun i => rnd (S i)) n')
  end.

