(* ===== verification/World.v ===== *)
(** * The environment every flow of the provider acts on

    A flow issues five kinds of commands: Redis commands, through the
    asynchronous module-level tornadoredis client [r] (a [yield gen.Task]
    point, where other flows may run) or through a synchronous client;
    the asynchronous [db.application.find_one] of mongotor; the
    synchronous [Application.objects.get] of the document mapper; a draw
    of [utils.random_ascii_string]; and [logger.exception].  The world is
    the Redis server, the [application] collection, the entropy source
    with the number of draws already made, and the log.  [world_handle]
    runs one command atomically: Redis serves one command at a time. *)

From stdpp Require Import base strings list gmap.
From Stdlib Require Import ZArith.
From S2P Require Import Prelude Store Utils.

(** A document of the [application] collection (spec: a Client). *)
Record app : Type := App {
  app_key : string;
  app_secret : string;
  app_redirect_uri : string;
  app_scope : string
}.

(** The document as [find_one] returns it: a dict. *)
Definition app_doc (a : app) : pyval :=
  PyDict [("app_key", PyStr (app_key a)); ("app_secret", PyStr (app_secret a));
          ("redirect_uri", PyStr (app_redirect_uri a)); ("scope", PyStr (app_scope a))].

(** The first document whose [app_key] equals [key]. *)
Definition find_app (apps : list app) (key : pyval) : option app :=
  List.find (fun a => py_eq key (PyStr (app_key a))) apps.

Inductive client : Type := AsyncClient | SyncClient.

Inductive wcmd : Type -> Type :=
| RedisCmd (via : client) (c : Redis.command) : wcmd Redis.reply
| FindApp (key : pyval) : wcmd (option app)
| GetApp (key : pyval) : wcmd (option app)
| Random (n : nat) : wcmd string
| LogExn (e : exn) : wcmd unit.

Record world : Type := World {
  w_redis : Redis.store;
  w_apps : list app;
  w_rnd : nat -> nat;
  w_drawn : nat;
  w_log : list exn
}.

Definition set_redis (st : Redis.store) (w : world) : world :=
  World st (w_apps w) (w_rnd w) (w_drawn w) (w_log w).

Definition world_handle {X} (c : wcmd X) (w : world) : X * world :=
  match c in wcmd X return X * world with
  | RedisCmd _ rc => let '(rep, st) := Redis.exec rc (w_redis w) in (rep, set_redis st w)
  | FindApp k => (find_app (w_apps w) k, w)
  | GetApp k => (find_app (w_apps w) k, w)
  | Random n =>
      (random_ascii_string (fun i => w_rnd w (w_drawn w + i)) n,
       World (w_redis w) (w_apps w) (w_rnd w) (w_drawn w + n) (w_log w))
  | LogExn e => (tt, World (w_redis w) (w_apps w) (w_rnd w) (w_drawn w) (w_log w ++ [e]))
  end.

#[export] Instance world_handler : Handler wcmd world := @world_handle.

Abbreviation flow := (prog wcmd).

(** The commands a flow suspends on ([yield gen.Task]): while it waits,
    other flows run. *)
Definition is_yield {X} (c : wcmd X) : bool :=
  match c with
  | RedisCmd AsyncClient _ | FindApp _ => true
  | _ => false
  end.

(** A Redis command through either client; an error reply is raised as
    [ResponseError]. *)
Definition redis_via (via : client) (c : Redis.command) : flow Redis.reply :=
  rep ← trigger (RedisCmd via c);
  match rep with Redis.Error msg => Raise (ResponseError msg) | _ => mret rep end.

Definition redis_async : Redis.command -> flow Redis.reply := redis_via AsyncClient.
Definition redis_sync : Redis.command -> flow Redis.reply := redis_via SyncClient.

(** The Python value a client hands back for a reply. *)
Definition reply_value (rep : Redis.reply) : pyval :=
  match rep with
  | Redis.Bulk (Some v) => v
  | Redis.Bulk None => PyNone
  | Redis.Int z => PyInt z
  | Redis.Members l => PyList (map PyStr l)
  | Redis.Status => PyBool true
  | Redis.Error msg => PyStr msg
  end.

(** [json.loads(data)] of a GET reply: [None] is not a string. *)
Definition json_loads (rep : Redis.reply) : flow pyval :=
  match rep with
  | Redis.Bulk (Some v) => mret v
  | _ => Raise (TypeError "expected string or buffer")
  end.

(** [self._handle_exception(exc)]: [logger.exception(exc)]. *)
Definition _handle_exception (e : exn) : flow unit := trigger (LogExn e).

(** Time passes between requests. *)
Definition advance (dt : Z) (w : world) : world := set_redis (Redis.tick dt (w_redis w)) w.

(** The only component of the world a flow changes besides the store,
    the draws and the log is none: the application collection is read-only. *)
Lemma world_handle_apps {X} (c : wcmd X) w : w_apps (world_handle c w).2 = w_apps w.
Proof. destruct c; cbn; try done. by destruct (Redis.exec c (w_redis w)). Qed.
