(* ===== verification/Response.v ===== *)
(** * Response construction: the [Provider] base class

    [toroauth2/provider.py], class [Provider] (lines 13-97): the two wire
    shapes of spec section 4.3.  A response is a [requests.Response] with
    a status code, a header dict and a body; a JSON body is kept as the
    Python value that [json.dumps] encodes.  Only [refresh_token] still
    returns these responses: the other endpoints have their
    [return self._make_..._response(...)] lines commented out. *)

From stdpp Require Import base strings list.
From Stdlib Require Import ZArith.
From S2P Require Import Prelude Utils.

Inductive body : Type :=
| BodyText (s : string)
| BodyJson (data : pyval).

Record response : Type := Response {
  status_code : Z;
  headers : dict;
  raw : body
}.

Module Provider.

(** [_make_response(body='', headers=None, status_code=200)]. *)
Definition _make_response (b : body) (hs : option dict) (code : Z) : response :=
  Response code (match hs with Some h => dict_update [] h | None => [] end) b.

(** [_make_redirect_error_response(redirect_uri, err)]: a 302 whose
    [Location] is the redirect URI with [error] added and the protocol
    parameters removed. *)
Definition _make_redirect_error_response (redirect_uri err : string) : response :=
  let params := [("error", PyStr err); ("response_type", PyNone);
                 ("client_id", PyNone); ("redirect_uri", PyNone)] in
  let redirect := build_url redirect_uri params in
  _make_response (BodyText "") (Some [("Location", PyStr redirect)]) 302.

(** [_make_json_response(data, headers=None, status_code=200)]. *)
Definition _make_json_response (data : pyval) (hs : option dict) (code : Z) : response :=
  let h := match hs with Some h => dict_update [] h | None => [] end in
  let h := dict_set h "Content-Type" (PyStr "application/json;charset=UTF-8") in
  let h := dict_set h "Cache-Control" (PyStr "no-store") in
  let h := dict_set h "Pragma" (PyStr "no-cache") in
  _make_response (BodyJson data) (Some h) code.

(** [_make_json_error_response(err)]. *)
Definition _make_json_error_response (err : string) : response :=
  _make_json_response (PyDict [("error", PyStr err)]) None 400.

(** [_invalid_redirect_uri_response()]. *)
Definition _invalid_redirect_uri_response : response :=
  _make_json_error_response "invalid_request".

End Provider.
