(* ===== verification/AuthProvider.v ===== *)
(** * The authorization provider: [AuthorizationProvider]

    [toroauth2/provider.py], class [AuthorizationProvider] (lines 100-566).
    The class leaves eleven methods to a subclass (validation, the reads
    of stored codes and tokens, their persistence and discarding); they are
    the interface [AuthHooks], and the provider's operations are defined
    over any instance of it.  Two instances are given: [base_hooks], the
    base class's own methods (every one raises [NotImplementedError]), and
    the Redis/Mongo subclass of [src/provider.py] in [Toroauth2.v].

    A hook is called in one of two ways, and the provider uses both:
    through [yield gen.Task(self.m, ...)], which passes a callback and
    waits for it ([ViaTask]), or as a plain call [self.m(...)] whose
    return value is used ([Direct]).  For a subclass method decorated
    with [@gen.engine] the two differ: a direct call returns [None] at
    once. *)

From stdpp Require Import base strings list gmap.
From Stdlib Require Import ZArith.
From S2P Require Import Prelude Store Utils World Response.

Inductive invocation : Type := Direct | ViaTask.

(** The methods a subclass must provide (docstring, lines 105-140). *)
Class AuthHooks : Type := {
  validate_client_id : invocation -> pyval -> flow pyval;
  validate_client_secret : invocation -> pyval -> pyval -> flow pyval;
  validate_redirect_uri : invocation -> pyval -> pyval -> flow pyval;
  validate_scope : invocation -> pyval -> pyval -> flow pyval;
  validate_access : invocation -> flow pyval;
  from_authorization_code : invocation -> pyval -> pyval -> flow pyval;
  from_refresh_token : invocation -> pyval -> pyval -> pyval -> flow pyval;
  persist_authorization_code : invocation -> pyval -> pyval -> pyval -> flow pyval;
  persist_token_information :
    invocation -> pyval -> pyval -> pyval -> pyval -> pyval -> pyval -> flow pyval;
  discard_authorization_code : invocation -> pyval -> pyval -> flow pyval;
  discard_refresh_token : invocation -> pyval -> pyval -> flow pyval
}.

(** The base class's own bodies (lines 522-566). *)
Definition not_implemented {A} (name : string) : flow A :=
  Raise (NotImplementedError ("Subclasses must implement " ++ name ++ ".")).

#[export] Instance base_hooks : AuthHooks := {
  validate_client_id _ _ := not_implemented "validate_client_id";
  validate_client_secret _ _ _ := not_implemented "validate_client_secret";
  validate_redirect_uri _ _ _ := not_implemented "validate_redirect_uri";
  validate_scope _ _ _ := not_implemented "validate_scope";
  validate_access _ := not_implemented "validate_access";
  from_authorization_code _ _ _ := not_implemented "from_authorization_code";
  from_refresh_token _ _ _ _ := not_implemented "from_refresh_token";
  persist_authorization_code _ _ _ _ := not_implemented "persist_authorization_code";
  persist_token_information _ _ _ _ _ _ _ := not_implemented "persist_token_information";
  discard_authorization_code _ _ _ := not_implemented "discard_authorization_code";
  discard_refresh_token _ _ _ := not_implemented "discard_refresh_token"
}.

Module AuthorizationProvider.

(** The overridable properties, at their defaults (lines 161-183). *)
Definition token_length : nat := 40.
Definition token_type : string := "Bearer".
Definition token_expires_in : Z := 3600.

(** [generate_authorization_code], [generate_access_token],
    [generate_refresh_token] (lines 185-204). *)
Definition generate_authorization_code : flow string := trigger (Random token_length).
Definition generate_access_token : flow string := trigger (Random token_length).
Definition generate_refresh_token : flow string := trigger (Random token_length).

(** The token dict of a successful grant. *)
Definition token_dict (access_token refresh_token : string) : pyval :=
  PyDict [("access_token", PyStr access_token); ("token_type", PyStr token_type);
          ("expires_in", PyInt token_expires_in); ("refresh_token", PyStr refresh_token)].

(** [params.get(k)] for a keyword argument [k] of a [**params] call. *)
Definition kwarg (d : dict) (k : string) : pyval := dict_get_default d k PyNone.

(** The [**params] left after the named parameters are bound. *)
Definition kwargs_rest (d : dict) (names : list string) : dict :=
  fold_left dict_pop names d.

(** [yield gen.Task(f, **kw)] in tornado 3: the constructor of [Task]
    asserts that [kw] has no key [callback] ([AssertionError]); the
    runner then calls [f] with the keywords of [kw] and its own
    [callback=], so a key [self] is a second value for the bound [self] and
    the call raises [TypeError], which the runner throws back into the
    coroutine at the [yield].  Both exceptions are raised inside the
    adapters' [try]. *)
Definition task_kwargs (f : string) (kw : dict) : flow unit :=
  _ ← raise_if (dict_mem "callback" kw) AssertionError;
  raise_if (dict_mem "self" kw)
    (TypeError (f ++ "() got multiple values for keyword argument 'self'")).

(** The [except TypeError] / [except StandardError] handler of the two
    adapters: log the exception, then [raise] it again ([reraise]) or
    swallow it. *)
Definition handle_adapter_exn (reraise : bool) (e : exn) : flow pyval :=
  if is_standard_error e then
    _ ← _handle_exception e; if reraise then Raise e else Halt
  else Raise e.

Section Operations.
Context `{!AuthHooks}.

(** [get_authorization_code(response_type, client_id, redirect_uri,
    callback, **params)] (lines 206-287).  A wrong [response_type]
    raises [gen.Return(err)] inside a [@gen.engine] coroutine, which
    tornado turns into [ReturnValueIgnoredError].  The checks on the
    redirect URI and the scope only [pass]. *)
Definition get_authorization_code
    (response_type client_id redirect_uri : pyval) (params : dict) : flow pyval :=
  if negb (py_eq_str response_type "code") then
    Raise (ReturnValueIgnoredError (PyStr "unsupported_response_type"))
  else
    let scope := dict_get_default params "scope" (PyStr "") in
    result ← validate_client_id ViaTask client_id;
    _ ← (if truthy result then
           match result with PyDict _ => mret tt | _ => Raise (AttributeError "get") end
         else mret tt);
    code ← generate_authorization_code;
    _ ← persist_authorization_code ViaTask client_id (PyStr code) scope;
    let params' := dict_update params
      [("code", PyStr code); ("response_type", PyNone);
       ("client_id", PyNone); ("redirect_uri", PyNone)] in
    mret (PyDict [("redirect_uri", PyStr (build_url (py_str redirect_uri) params'))]).

(** [refresh_token(grant_type, client_id, client_secret, refresh_token,
    **params)] (lines 289-354): a plain method returning a response.
    All four hooks run before any check. *)
Definition refresh_token
    (grant_type client_id client_secret refresh_token : pyval) (params : dict)
    : flow response :=
  if negb (py_eq_str grant_type "refresh_token") then
    mret (Provider._make_json_error_response "unsupported_grant_type")
  else
    is_valid_client_id ← validate_client_id Direct client_id;
    is_valid_client_secret ← validate_client_secret Direct client_id client_secret;
    let scope := dict_get_default params "scope" (PyStr "") in
    is_valid_scope ← validate_scope Direct client_id scope;
    data ← from_refresh_token Direct client_id refresh_token scope;
    if negb (truthy is_valid_client_id && truthy is_valid_client_secret) then
      mret (Provider._make_json_error_response "invalid_client")
    else if negb (truthy is_valid_scope) then
      mret (Provider._make_json_error_response "invalid_scope")
    else if is_none data then
      mret (Provider._make_json_error_response "invalid_grant")
    else
      _ ← discard_refresh_token Direct client_id refresh_token;
      access_token ← generate_access_token;
      new_refresh_token ← generate_refresh_token;
      _ ← persist_token_information Direct client_id (PyStr access_token)
            (PyStr token_type) (PyInt token_expires_in) (PyStr new_refresh_token) data;
      mret (Provider._make_json_response (token_dict access_token new_refresh_token)
              None 200).

(** [get_token(grant_type, client_id, client_secret, redirect_uri, code,
    callback, **params)] (lines 356-434): the checks of the grant type,
    the client and the redirect URI are commented out, and the result of
    [from_authorization_code] is not tested. *)
Definition get_token
    (grant_type client_id client_secret redirect_uri code : pyval) (params : dict)
    : flow pyval :=
  data ← from_authorization_code ViaTask client_id code;
  _ ← discard_authorization_code ViaTask client_id code;
  access_token ← generate_access_token;
  refresh_token ← generate_refresh_token;
  _ ← persist_token_information ViaTask client_id (PyStr access_token)
        (PyStr token_type) (PyInt token_expires_in) (PyStr refresh_token) data;
  mret (token_dict access_token refresh_token).

(** [get_authorization_code_from_uri(uri, callback)] (lines 436-481):
    both handlers log and re-raise. *)
Definition get_authorization_code_from_uri (uri : string) : flow pyval :=
  let params := url_query_params uri in
  catch
    (_ ← raise_if (negb (dict_mem "response_type" params))
           (TypeError "Missing parameter response_type in URL query");
     _ ← raise_if (negb (dict_mem "client_id" params))
           (TypeError "Missing parameter client_id in URL query");
     _ ← raise_if (negb (dict_mem "redirect_uri" params))
           (TypeError "Missing parameter redirect_uri in URL query");
     _ ← task_kwargs "get_authorization_code" params;
     get_authorization_code (kwarg params "response_type") (kwarg params "client_id")
       (kwarg params "redirect_uri")
       (kwargs_rest params ["response_type"; "client_id"; "redirect_uri"]))
    (handle_adapter_exn true).

(** The loop [for x in names: if not data.get(x): raise TypeError(...)]. *)
Fixpoint require_post_params (data : dict) (names : list string) : flow unit :=
  match names with
  | [] => mret tt
  | x :: names' =>
      _ ← raise_if (negb (truthy (kwarg data x)))
            (TypeError ("Missing required OAuth 2.0 POST param: " ++ x));
      require_post_params data names'
  end.

(** [get_token_from_post_data(data, callback)] (lines 483-520): the
    refresh branch is a [pass]; both handlers log and swallow the
    exception, so the callback is never called. *)
Definition get_token_from_post_data (data : dict) : flow pyval :=
  catch
    (_ ← require_post_params data ["grant_type"; "client_id"; "client_secret"];
     _ ← require_post_params data ["redirect_uri"; "code"];
     _ ← task_kwargs "get_token" data;
     get_token (kwarg data "grant_type") (kwarg data "client_id")
       (kwarg data "client_secret") (kwarg data "redirect_uri") (kwarg data "code")
       (kwargs_rest data ["grant_type"; "client_id"; "client_secret"; "redirect_uri"; "code"]))
    (handle_adapter_exn false).
End Operations.

End AuthorizationProvider.

(** ** Command discipline of the provider

    The provider itself only draws tokens and logs; every store command
    comes from a hook.  So a discipline on commands that the hooks keep
    ([HooksRespect]) is kept by every operation: this is what an
    implementation of the hooks must discharge for the store invariants
    proved over the operations. *)

Class HooksRespect (H : AuthHooks) (P : forall X, wcmd X -> Prop) : Prop := {
  respect_validate_client_id m a : all_calls P (validate_client_id m a);
  respect_validate_client_secret m a b : all_calls P (validate_client_secret m a b);
  respect_validate_scope m a b : all_calls P (validate_scope m a b);
  respect_from_authorization_code m a b : all_calls P (from_authorization_code m a b);
  respect_from_refresh_token m a b c : all_calls P (from_refresh_token m a b c);
  respect_persist_authorization_code m a b c : all_calls P (persist_authorization_code m a b c);
  respect_persist_token_information m a b c d e f :
    all_calls P (persist_token_information m a b c d e f);
  respect_discard_authorization_code m a b : all_calls P (discard_authorization_code m a b);
  respect_discard_refresh_token m a b : all_calls P (discard_refresh_token m a b)
}.

Create HintDb discipline discriminated.
#[export] Hint Resolve respect_validate_client_id respect_validate_client_secret
  respect_validate_scope respect_from_authorization_code respect_from_refresh_token
  respect_persist_authorization_code respect_persist_token_information
  respect_discard_authorization_code respect_discard_refresh_token : discipline.

Lemma task_kwargs_respect (P : forall X, wcmd X -> Prop) f kw :
  all_calls P (AuthorizationProvider.task_kwargs f kw).
Proof. unfold AuthorizationProvider.task_kwargs, raise_if. by repeat case_match. Qed.
#[export] Hint Resolve task_kwargs_respect : discipline.

(** Solves [all_calls P prog] goals by following the program's structure. *)
Ltac discipline :=
  repeat first
    [ solve [eauto with discipline]
    | progress intros
    | apply all_calls_bind
    | apply all_calls_catch
    | apply all_calls_trigger
    | apply all_calls_detach
    | progress unfold raise_if
    | progress cbn [all_calls mret prog_ret]
    | match goal with |- context [if ?b then _ else _] => destruct b end
    | match goal with |- context [match ?x with _ => _ end] => destruct x end ].

Section Discipline.
Context `{H : !AuthHooks} (P : forall X, wcmd X -> Prop) `{!HooksRespect H P}.
Hypothesis P_random : forall n, P _ (Random n).
Hypothesis P_log : forall e, P _ (LogExn e).
#[local] Hint Resolve P_random P_log : discipline.

Lemma require_post_params_respect data names :
  all_calls P (AuthorizationProvider.require_post_params data names).
Proof. induction names; cbn; discipline. Qed.
#[local] Hint Resolve require_post_params_respect : discipline.

Lemma get_authorization_code_respect rt cid ruri params :
  all_calls P (AuthorizationProvider.get_authorization_code rt cid ruri params).
Proof. unfold AuthorizationProvider.get_authorization_code. discipline. Qed.

Lemma get_token_respect gt cid cs ruri code params :
  all_calls P (AuthorizationProvider.get_token gt cid cs ruri code params).
Proof. unfold AuthorizationProvider.get_token. discipline. Qed.

Lemma refresh_token_respect gt cid cs rt params :
  all_calls P (AuthorizationProvider.refresh_token gt cid cs rt params).
Proof. unfold AuthorizationProvider.refresh_token. discipline. Qed.
#[local] Hint Resolve get_authorization_code_respect get_token_respect : discipline.

Lemma get_authorization_code_from_uri_respect uri :
  all_calls P (AuthorizationProvider.get_authorization_code_from_uri uri).
Proof.
  unfold AuthorizationProvider.get_authorization_code_from_uri,
    AuthorizationProvider.handle_adapter_exn, _handle_exception. discipline.
Qed.

Lemma get_token_from_post_data_respect data :
  all_calls P (AuthorizationProvider.get_token_from_post_data data).
Proof.
  unfold AuthorizationProvider.get_token_from_post_data,
    AuthorizationProvider.handle_adapter_exn, _handle_exception. discipline.
Qed.
End Discipline.

(** ** What the operations deliver

    Over every implementation of the hooks, [get_token] and the POST
    adapter deliver only a Bearer token dict, and [get_authorization_code]
    and the URI adapter only a redirect descriptor to the redirect URI
    they were given, carrying the extra parameters of the request and a
    code: no error response reaches a callback. *)

Definition is_token_dict (r : pyval) : Prop :=
  exists access refresh, r = AuthorizationProvider.token_dict access refresh.

(** The callback dict of [get_authorization_code] (lines 276-287): the
    redirect URI with the extra parameters [params] and a code. *)
Definition code_redirect (redirect_uri : pyval) (params : dict) (r : pyval) : Prop :=
  exists code, r = PyDict [("redirect_uri", PyStr (build_url (py_str redirect_uri)
    (dict_update params [("code", PyStr code); ("response_type", PyNone);
                         ("client_id", PyNone); ("redirect_uri", PyNone)])))].

(** Solves [all_rets Q prog] goals down to the values returned. *)
Ltac rets :=
  repeat first
    [ exact I
    | progress intros
    | apply all_rets_bind
    | apply all_rets_catch
    | progress unfold raise_if
    | progress cbn [all_rets mret prog_ret]
    | match goal with |- context [if ?b then _ else _] => destruct b end ].

Section Results.
Context `{!AuthHooks}.

Lemma handle_adapter_exn_rets (Q : pyval -> Prop) reraise e :
  all_rets Q (AuthorizationProvider.handle_adapter_exn reraise e).
Proof. unfold AuthorizationProvider.handle_adapter_exn, _handle_exception. rets. Qed.

Lemma get_token_rets gt cid cs ruri code params :
  all_rets is_token_dict (AuthorizationProvider.get_token gt cid cs ruri code params).
Proof. unfold AuthorizationProvider.get_token. rets. by eexists _, _. Qed.

Lemma get_token_from_post_data_rets data :
  all_rets is_token_dict (AuthorizationProvider.get_token_from_post_data data).
Proof.
  unfold AuthorizationProvider.get_token_from_post_data. apply all_rets_catch.
  - rets. by eexists _, _.
  - intros e. apply handle_adapter_exn_rets.
Qed.

Lemma get_authorization_code_rets rt cid ruri params :
  all_rets (code_redirect ruri params)
    (AuthorizationProvider.get_authorization_code rt cid ruri params).
Proof. unfold AuthorizationProvider.get_authorization_code. rets. by eexists. Qed.

Lemma get_authorization_code_from_uri_rets uri :
  all_rets (code_redirect (AuthorizationProvider.kwarg (url_query_params uri) "redirect_uri")
             (AuthorizationProvider.kwargs_rest (url_query_params uri)
                ["response_type"; "client_id"; "redirect_uri"]))
    (AuthorizationProvider.get_authorization_code_from_uri uri).
Proof.
  unfold AuthorizationProvider.get_authorization_code_from_uri. apply all_rets_catch.
  - rets. all: first [apply get_authorization_code_rets | by eexists].
  - intros e. apply handle_adapter_exn_rets.
Qed.
End Results.
