(* ===== verification/Toroauth2.v ===== *)
(** * The Redis/Mongo provider: [Toroauth2AuthorizationProvider]

    [src/provider.py]: the subclass that implements the hooks of
    [AuthHooks] over the Redis server (codes and tokens) and the Mongo
    [application] collection (clients).  Store keys are built with
    ["%s"] formatting:

    - ['oauth2.authorization_code.%s:%s' % (client_id, code)], a
      [{client_id, scope}] dict, for 60 seconds ([SETEX]);
    - ['oauth2.access_token:%s' % access_token], the grant's data, for
      [expires_in] seconds;
    - ['oauth2.refresh_token.%s:%s' % (client_id, refresh_token)], the
      same data, with no expiry ([SET]);
    - ['oauth2.client_user.%s:%s' % (client_id, user_id)], the set of the
      two token keys ([SADD]).

    Three facts of the source shape the model.  Lines 27 and 43 read
    [raise Exception if <cond>], which Python does not parse; the model
    gives them their evident meaning, [if <cond>: raise Exception].  The
    refresh and revocation methods use [self.r], an attribute nobody
    sets (the client is the module-level [r]): the provider object is
    modelled as a record telling whether [self.r] exists, and the handlers
    of [src/provider_server.py] create it without.  And [validate_redirect_uri]
    is decorated with [@gen.engine] although it has no [yield], so it
    returns a value where tornado refuses one. *)

From stdpp Require Import base strings list gmap.
From Stdlib Require Import ZArith Ascii.
From S2P Require Import Prelude Store Utils World Response AuthProvider.

Module Toroauth2.

(** The provider object: whether an attribute [r] was set on it. *)
Record provider : Type := Provider { has_r : bool }.

(** [Toroauth2AuthorizationProvider()], as the request handlers build it. *)
Definition fresh_provider : provider := Provider false.

(** ** Store keys *)

Definition code_key (client_id code : pyval) : string :=
  "oauth2.authorization_code." ++ py_str client_id ++ ":" ++ py_str code.

Definition access_key (access_token : pyval) : string :=
  "oauth2.access_token:" ++ py_str access_token.

Definition refresh_key (client_id refresh_token : pyval) : string :=
  "oauth2.refresh_token." ++ py_str client_id ++ ":" ++ py_str refresh_token.

Definition client_user_key (client_id user_id : pyval) : string :=
  "oauth2.client_user." ++ py_str client_id ++ ":" ++ py_str user_id.

(** ** Calling conventions *)

(** A [@gen.engine] generator method.  Its body is given whether a
    callback was passed ([if callback:] guards every callback call).
    Through [gen.Task] it runs to its callback; called directly it
    returns [None], and its commands still run, detached. *)
Definition engine (mode : invocation) (body : bool -> flow pyval) : flow pyval :=
  match mode with
  | ViaTask => body true
  | Direct => _ ← detach (body false); mret PyNone
  end.

(** A [@gen.engine] method with no [yield]: tornado calls it, and as its
    result is not [None] raises [ReturnValueIgnoredError]. *)
Definition engine_no_yield (mode : invocation) (body : flow pyval) : flow pyval :=
  result ← body;
  if is_none result then (match mode with ViaTask => Halt | Direct => mret PyNone end)
  else Raise (ReturnValueIgnoredError result).

(** A plain method: [gen.Task] would pass it a [callback] it does not take. *)
Definition plain (name : string) (mode : invocation) (body : flow pyval) : flow pyval :=
  match mode with
  | Direct => body
  | ViaTask => Raise (TypeError (name ++ "() got an unexpected keyword argument 'callback'"))
  end.

(** [self.r]. *)
Definition self_r (p : provider) : flow unit :=
  if has_r p then mret tt else Raise (AttributeError "r").

Definition doc_of (a : option app) : pyval :=
  match a with Some a => app_doc a | None => PyNone end.

(** ** The methods *)

(** [validate_client_id] (lines 17-28). *)
Definition validate_client_id (mode : invocation) (client_id : pyval) : flow pyval :=
  engine mode (fun cb =>
    a ← trigger (FindApp client_id);
    let result := doc_of a in
    if cb then (_ ← raise_if (is_none result) PyException; mret result) else mret PyNone).

(** [validate_client_secret] (lines 30-44): [result["app_secret"] is not
    client_secret] compares the identities of a string read from Mongo and
    one read from the request, two distinct objects. *)
Definition validate_client_secret (mode : invocation) (client_id client_secret : pyval)
    : flow pyval :=
  engine mode (fun cb =>
    a ← trigger (FindApp client_id);
    if cb then
      match a with
      | None => Raise (TypeError "'NoneType' object has no attribute '__getitem__'")
      | Some _ => Raise PyException
      end
    else mret PyNone).

(** [redirect_uri.split('?')[0]]. *)
Definition strip_query (uri : string) : string := (split_once "?"%char uri).1.

(** [validate_redirect_uri] (lines 46-62). *)
Definition validate_redirect_uri (mode : invocation) (client_id redirect_uri : pyval)
    : flow pyval :=
  engine_no_yield mode (
    a ← trigger (GetApp client_id);
    match a with
    | None => Raise DoesNotExist
    | Some a => mret (PyBool (String.eqb (app_redirect_uri a) (strip_query (py_str redirect_uri))))
    end).

(** [validate_access] (lines 64-68). *)
Definition validate_access (mode : invocation) : flow pyval :=
  plain "validate_access" mode (mret (PyBool true)).

(** [validate_scope] (lines 70-83). *)
Definition validate_scope (mode : invocation) (client_id scope : pyval) : flow pyval :=
  plain "validate_scope" mode (
    a ← trigger (GetApp client_id);
    match a with
    | None => Raise DoesNotExist
    | Some a => mret (PyBool (py_eq scope (PyStr (app_scope a))))
    end).

(** [persist_authorization_code] (lines 85-112). *)
Definition persist_authorization_code (mode : invocation) (client_id code scope : pyval)
    : flow pyval :=
  engine mode (fun cb =>
    let key := code_key client_id code in
    let data := PyDict [("client_id", client_id); ("scope", scope)] in
    result ← redis_async (Redis.SETEX key 60 data);
    if cb then mret (reply_value result) else mret PyNone).

(** The seconds of [r.setex(key, expires_in, ...)]. *)
Definition ttl_of (expires_in : pyval) : Z :=
  match expires_in with PyInt z => z | _ => 0 end.

(** [persist_token_information] (lines 114-148). *)
Definition persist_token_information (mode : invocation)
    (client_id access_token token_type expires_in refresh_token data : pyval) : flow pyval :=
  engine mode (fun cb =>
    let akey := access_key access_token in
    _ ← redis_async (Redis.SETEX akey (ttl_of expires_in) data);
    let rkey := refresh_key client_id refresh_token in
    _ ← redis_async (Redis.SET rkey data);
    match data with
    | PyDict d =>
        let key := client_user_key client_id (dict_get_default d "user_id" PyNone) in
        result ← redis_async (Redis.SADD key [akey; rkey]);
        if cb then mret (reply_value result) else mret PyNone
    | _ => Raise (AttributeError "get")
    end).

(** [from_authorization_code] (lines 150-164). *)
Definition from_authorization_code (mode : invocation) (client_id code : pyval) : flow pyval :=
  engine mode (fun cb =>
    data ← redis_async (Redis.GET (code_key client_id code));
    if cb then json_loads data else mret PyNone).

(** [from_refresh_token] (lines 166-187). *)
Definition from_refresh_token (p : provider) (mode : invocation)
    (client_id refresh_token scope : pyval) : flow pyval :=
  plain "from_refresh_token" mode (
    let key := refresh_key client_id refresh_token in
    _ ← self_r p;
    data ← redis_sync (Redis.GET key);
    match data with
    | Redis.Bulk None => mret PyNone
    | _ =>
        d ← json_loads data;
        match d with
        | PyDict dd =>
            if (py_eq scope (PyStr "") || py_eq scope (dict_get_default dd "scope" PyNone))
               && py_eq (dict_get_default dd "client_id" PyNone) client_id
            then mret d else mret PyNone
        | _ => Raise (AttributeError "get")
        end
    end).

(** [discard_authorization_code] (lines 189-203). *)
Definition discard_authorization_code (mode : invocation) (client_id code : pyval) : flow pyval :=
  engine mode (fun cb =>
    result ← redis_async (Redis.DEL [code_key client_id code]);
    if cb then mret (reply_value result) else mret PyNone).

(** [discard_refresh_token] (lines 205-215). *)
Definition discard_refresh_token (p : provider) (mode : invocation) (client_id refresh_token : pyval)
    : flow pyval :=
  plain "discard_refresh_token" mode (
    let key := refresh_key client_id refresh_token in
    _ ← self_r p;
    _ ← redis_sync (Redis.DEL [key]);
    mret PyNone).

(** [discard_client_user_tokens] (lines 217-230): a pipeline (a
    MULTI/EXEC transaction) deleting every member of the index set. *)
Definition discard_client_user_tokens (p : provider) (client_id user_id : pyval) : flow pyval :=
  let keys := client_user_key client_id user_id in
  _ ← self_r p;
  ms ← redis_sync (Redis.SMEMBERS keys);
  match ms with
  | Redis.Members l => _ ← redis_sync (Redis.DEL l); mret PyNone
  | _ => mret PyNone
  end.

Definition hooks (p : provider) : AuthHooks := {|
  AuthProvider.validate_client_id := validate_client_id;
  AuthProvider.validate_client_secret := validate_client_secret;
  AuthProvider.validate_redirect_uri := validate_redirect_uri;
  AuthProvider.validate_scope := validate_scope;
  AuthProvider.validate_access := validate_access;
  AuthProvider.from_authorization_code := from_authorization_code;
  AuthProvider.from_refresh_token := from_refresh_token p;
  AuthProvider.persist_authorization_code := persist_authorization_code;
  AuthProvider.persist_token_information := persist_token_information;
  AuthProvider.discard_authorization_code := discard_authorization_code;
  AuthProvider.discard_refresh_token := discard_refresh_token p
|}.

(** ** Key families

    Each family of keys starts with its own prefix, and the prefixes
    differ before any formatted value begins: a key of one family is never
    a key of another. *)

Definition is_code_key (k : string) : bool := String.prefix "oauth2.authorization_code." k.

Lemma prefix_app (p s : string) : String.prefix p (p ++ s) = true.
Proof.
  induction p as [|a p IH]; simpl; [by destruct s|].
  destruct (Ascii.ascii_dec a a); [exact IH|done].
Qed.

Lemma is_code_key_code_key c k : is_code_key (code_key c k) = true.
Proof. apply prefix_app. Qed.

Lemma code_key_ne_access_key c k a : code_key c k <> access_key a.
Proof. intros H. inversion H. Qed.

Lemma code_key_ne_refresh_key c k c' r : code_key c k <> refresh_key c' r.
Proof. intros H. inversion H. Qed.

Lemma code_key_ne_client_user_key c k c' u : code_key c k <> client_user_key c' u.
Proof. intros H. inversion H. Qed.

Lemma access_key_ne_refresh_key a c r : access_key a <> refresh_key c r.
Proof. intros H. inversion H. Qed.

Lemma access_key_ne_client_user_key a c u : access_key a <> client_user_key c u.
Proof. intros H. inversion H. Qed.

Lemma refresh_key_ne_client_user_key c r c' u : refresh_key c r <> client_user_key c' u.
Proof. intros H. inversion H. Qed.

#[export] Hint Resolve code_key_ne_access_key code_key_ne_refresh_key
  code_key_ne_client_user_key access_key_ne_refresh_key access_key_ne_client_user_key
  refresh_key_ne_client_user_key : toro.

(** ** The discipline on code keys

    The subclass writes an authorization-code key only with [SETEX ... 60]:
    it discharges [HooksRespect] for that discipline. *)

Definition code_discipline (X : Type) (c : wcmd X) : Prop :=
  match c with
  | RedisCmd _ rc => Redis.bounded_cmd is_code_key 60 rc
  | _ => True
  end.

Ltac code_discipline_tac :=
  unfold engine, plain, engine_no_yield, self_r, redis_async, redis_sync, redis_via,
    json_loads;
  discipline; simpl; solve [done | lia | intros [=]].

Section CodeDiscipline.
Context (p : provider) (m : invocation).

Lemma validate_client_id_cd a : all_calls code_discipline (validate_client_id m a).
Proof. unfold validate_client_id. destruct m; code_discipline_tac. Qed.
Lemma validate_client_secret_cd a b : all_calls code_discipline (validate_client_secret m a b).
Proof. unfold validate_client_secret. destruct m; code_discipline_tac. Qed.
Lemma validate_scope_cd a b : all_calls code_discipline (validate_scope m a b).
Proof. unfold validate_scope. destruct m; code_discipline_tac. Qed.
Lemma from_authorization_code_cd a b : all_calls code_discipline (from_authorization_code m a b).
Proof. unfold from_authorization_code. destruct m; code_discipline_tac. Qed.
Lemma from_refresh_token_cd a b c : all_calls code_discipline (from_refresh_token p m a b c).
Proof. unfold from_refresh_token. destruct m; code_discipline_tac. Qed.
Lemma persist_authorization_code_cd a b c :
  all_calls code_discipline (persist_authorization_code m a b c).
Proof. unfold persist_authorization_code. destruct m; code_discipline_tac. Qed.
Lemma persist_token_information_cd a b c d e f :
  all_calls code_discipline (persist_token_information m a b c d e f).
Proof. unfold persist_token_information. destruct m; code_discipline_tac. Qed.
Lemma discard_authorization_code_cd a b :
  all_calls code_discipline (discard_authorization_code m a b).
Proof. unfold discard_authorization_code. destruct m; code_discipline_tac. Qed.
Lemma discard_refresh_token_cd a b : all_calls code_discipline (discard_refresh_token p m a b).
Proof. unfold discard_refresh_token. destruct m; code_discipline_tac. Qed.
End CodeDiscipline.

#[export] Instance hooks_code_discipline p : HooksRespect (hooks p) code_discipline.
Proof.
  split; intros.
  - apply validate_client_id_cd.
  - apply validate_client_secret_cd.
  - apply validate_scope_cd.
  - apply from_authorization_code_cd.
  - apply from_refresh_token_cd.
  - apply persist_authorization_code_cd.
  - apply persist_token_information_cd.
  - apply discard_authorization_code_cd.
  - apply discard_refresh_token_cd.
Qed.

Lemma discard_client_user_tokens_cd p c u :
  all_calls code_discipline (discard_client_user_tokens p c u).
Proof. unfold discard_client_user_tokens. code_discipline_tac. Qed.

(** ** Store keys *)

(** C17: the code key does not separate the client from the code: a
    client id ending in [":x"] and a code starting with ["x:"] give the
    same key, so [from_authorization_code] of one client can read a code
    issued to another. *)
Theorem code_key_collision (c x k : string) :
  code_key (PyStr (c ++ ":" ++ x)) (PyStr k) = code_key (PyStr c) (PyStr (x ++ ":" ++ k)).
Proof.
  unfold code_key. cbn. rewrite !string_app_assoc. reflexivity.
Qed.

End Toroauth2.
