(* ===== verification/Resource.v ===== *)
(** * The resource provider: [ResourceProvider]

    [toroauth2/provider.py], classes [OAuthError], [ResourceAuthorization]
    and [ResourceProvider] (lines 569-631).  A resource request carries an
    [Authorization] header; [get_authorization] splits it on whitespace,
    and for the scheme [Bearer <token>] hands the token to the subclass's
    [validate_access_token], which marks the authorization valid or not.

    The two methods a subclass supplies are the interface
    [ResourceHooks]; [validate_access_token] sets attributes of the
    authorization object it is given and its return value is ignored, so
    its model returns the updated object.  Each call of [get_authorization]
    builds a fresh [ResourceAuthorization] whose attributes start at the
    class defaults; assigning an attribute of the instance does not touch
    the class, so no state is shared between calls.  No subclass in the
    repository implements the two hooks; [base_resource_hooks] are the base
    class's own bodies. *)

From stdpp Require Import base strings list.
From Stdlib Require Import ZArith Ascii.
From S2P Require Import Prelude Store Utils World AuthProvider Toroauth2.

(** ** [ResourceAuthorization] (lines 576-587) *)

Record resource_authorization : Type := ResourceAuthorization {
  is_oauth : pyval;
  is_valid : pyval;
  token : pyval;
  client_id : pyval;
  expires_in : pyval;
  error : pyval
}.

(** [self.authorization_class()]: the class attributes' defaults. *)
Definition fresh_authorization : resource_authorization :=
  ResourceAuthorization (PyBool false) PyNone PyNone PyNone PyNone PyNone.

Definition set_is_oauth (a : resource_authorization) (v : pyval) : resource_authorization :=
  ResourceAuthorization v (is_valid a) (token a) (client_id a) (expires_in a) (error a).

Definition set_error (a : resource_authorization) (v : pyval) : resource_authorization :=
  ResourceAuthorization (is_oauth a) (is_valid a) (token a) (client_id a) (expires_in a) v.

(** [raise_error_if_invalid] (lines 585-587):
    [OAuthError(self.error, 'OAuth authorization error')]. *)
Definition raise_error_if_invalid (a : resource_authorization) : flow unit :=
  raise_if (negb (truthy (is_valid a))) (OAuthError (error a)).

(** ** [str.split()] without arguments

    Runs of whitespace separate the words; leading and trailing whitespace
    give no empty word.  The whitespace of a Python 2 [str] is space, tab,
    newline, carriage return, vertical tab and form feed. *)

Definition is_py_space (c : ascii) : bool :=
  match nat_of_ascii c with 32 | 9 | 10 | 11 | 12 | 13 => true | _ => false end.

(** The words of a string as the partial word at its start and the words
    after it. *)
Fixpoint py_split_aux (s : string) : string * list string :=
  match s with
  | EmptyString => (EmptyString, [])
  | String c s' =>
      let '(w, ws) := py_split_aux s' in
      if is_py_space c then (EmptyString, match w with EmptyString => ws | _ => w :: ws end)
      else (String c w, ws)
  end.

Definition py_split (s : string) : list string :=
  let '(w, ws) := py_split_aux s in
  match w with EmptyString => ws | _ => w :: ws end.

(** ** The interface a subclass implements (lines 596-604) *)

Class ResourceHooks : Type := {
  get_authorization_header : flow pyval;
  validate_access_token : string -> resource_authorization -> flow resource_authorization
}.

(** The base class's bodies (lines 626-631). *)
#[export] Instance base_resource_hooks : ResourceHooks := {
  get_authorization_header := not_implemented "get_authorization_header";
  validate_access_token _ _ := not_implemented "validate_access_token"
}.

Module ResourceProvider.

Section Operations.
Context `{!ResourceHooks}.

(** [get_authorization] (lines 611-624).  [not header.split] is false for
    a string, whose [split] is a bound method; any other truthy header has
    no attribute [split]. *)
Definition get_authorization : flow resource_authorization :=
  let auth := fresh_authorization in
  header ← get_authorization_header;
  if negb (truthy header) then mret auth else
  match header with
  | PyStr h =>
      match py_split h with
      | scheme :: access_token :: _ =>
          if String.eqb scheme "Bearer" then
            auth' ← validate_access_token access_token (set_is_oauth auth (PyBool true));
            if negb (truthy (is_valid auth')) then mret (set_error auth' (PyStr "access_denied"))
            else mret auth'
          else mret auth
      | _ => mret auth
      end
  | _ => Raise (AttributeError "split")
  end.

End Operations.

End ResourceProvider.

(** ** Splitting *)

(** A word: non-empty, without whitespace. *)
Definition no_space (w : string) : bool :=
  forallb (fun c => negb (is_py_space c)) (String.list_ascii_of_string w).

Definition py_word (w : string) : Prop := w <> EmptyString /\ no_space w = true.

Lemma py_split_aux_word w s :
  no_space w = true -> py_split_aux (w ++ s) = (w ++ (py_split_aux s).1, (py_split_aux s).2).
Proof.
  induction w as [|c w IH]; intros Hw.
  { change (EmptyString ++ s) with s. by destruct (py_split_aux s). }
  rewrite string_app_cons. cbn in Hw |- *. apply andb_true_iff in Hw as [Hc Hw].
  rewrite IH by done. apply negb_true_iff in Hc. rewrite Hc.
  destruct (py_split_aux s); reflexivity.
Qed.

Lemma py_split_aux_space c s :
  is_py_space c = true -> py_split_aux (String c s) = (EmptyString, py_split s).
Proof.
  intros Hc. cbn. unfold py_split. destruct (py_split_aux s) as [w ws]. by rewrite Hc.
Qed.

(** Leading whitespace is ignored. *)
Lemma py_split_space c s : is_py_space c = true -> py_split (String c s) = py_split s.
Proof. intros Hc. unfold py_split at 1. by rewrite py_split_aux_space. Qed.

(** [str.split()] inverts joining words with single spaces. *)
Lemma py_split_join_words ws : Forall py_word ws -> py_split (join " " ws) = ws.
Proof.
  induction 1 as [|w ws [Hne Hw] Hall IH]; [done|].
  destruct ws as [|w' ws'].
  - cbn [join]. unfold py_split. rewrite <-(string_app_nil_r w), py_split_aux_word by done.
    cbn. rewrite string_app_nil_r. by destruct w.
  - change (join " " (w :: w' :: ws')) with (w ++ String " " (join " " (w' :: ws'))).
    unfold py_split at 1. rewrite py_split_aux_word, py_split_aux_space by done.
    cbn [fst snd]. rewrite IH, string_app_nil_r. by destruct w.
Qed.

Lemma py_word_Bearer : py_word "Bearer".
Proof. split; [done|reflexivity]. Qed.

Section GetAuthorization.
Context `{!ResourceHooks}.

(** C14: a header [Bearer <token> ...] (words separated by single
    spaces) hands exactly [<token>] to [validate_access_token], on an
    authorization marked [is_oauth]; the result is the hook's
    authorization, with [error = 'access_denied'] when the hook did not
    make it valid. *)
Theorem get_authorization_bearer w w1 w2 tok rest a :
  py_word tok -> Forall py_word rest ->
  run get_authorization_header w = (Done (PyStr (join " " ("Bearer" :: tok :: rest))), w1) ->
  run (validate_access_token tok (set_is_oauth fresh_authorization (PyBool true))) w1 = (Done a, w2) ->
  run ResourceProvider.get_authorization w =
    (Done (if truthy (is_valid a) then a else set_error a (PyStr "access_denied")), w2).
Proof.
  intros Ht Hr Hh Hv. unfold ResourceProvider.get_authorization.
  rewrite run_bind, Hh. cbn [and_then].
  assert (Htr : truthy (PyStr (join " " ("Bearer" :: tok :: rest))) = true)
    by (destruct rest; reflexivity).
  rewrite Htr, py_split_join_words by (constructor; [apply py_word_Bearer|by constructor]).
  cbn -[run]. rewrite run_bind, Hv. cbn. by destruct (truthy (is_valid a)).
Qed.

(** C16: a missing or empty header, or one that is not of the form
    [Bearer <token> ...] after splitting, gives the class defaults: not
    OAuth, [is_valid = None], no error, and no token is validated. *)
Theorem get_authorization_anonymous w h w1 :
  run get_authorization_header w = (Done h, w1) ->
  (truthy h = false \/
   exists s, h = PyStr s /\ forall tok rest, py_split s <> "Bearer" :: tok :: rest) ->
  run ResourceProvider.get_authorization w = (Done fresh_authorization, w1).
Proof.
  intros Hh Hcase. unfold ResourceProvider.get_authorization.
  rewrite run_bind, Hh. cbn [and_then].
  destruct Hcase as [-> | (s & -> & Hs)]; [done|].
  destruct (truthy (PyStr s)); cbn -[run py_split]; [|done].
  destruct (py_split s) as [|scheme [|tok rest]] eqn:E; try done.
  destruct (String.eqb_spec scheme "Bearer") as [->|]; [|done].
  exfalso. exact (Hs tok rest eq_refl).
Qed.

(** What [get_authorization] can return: the defaults, an authorization
    the hook made valid, or one marked [access_denied]. *)
Lemma get_authorization_result w a w1 :
  run ResourceProvider.get_authorization w = (Done a, w1) ->
  a = fresh_authorization \/ truthy (is_valid a) = true \/ error a = PyStr "access_denied".
Proof.
  unfold ResourceProvider.get_authorization. rewrite run_bind.
  destruct (run get_authorization_header w) as [[h|e|] w']; cbn [and_then]; try discriminate.
  destruct (negb (truthy h)); [cbn; intros [= <- _]; by left|].
  destruct h; cbn -[run py_split]; try (intros [= <- _]; by left); try discriminate.
  destruct (py_split s) as [|scheme [|tok rest]]; cbn -[run]; try (intros [= <- _]; by left).
  destruct (String.eqb scheme "Bearer"); cbn -[run]; [|intros [= <- _]; by left].
  rewrite run_bind.
  destruct (run (validate_access_token _ _) w') as [[a'|e|] w'']; cbn; try discriminate.
  destruct (truthy (is_valid a')) eqn:Hv; cbn; intros [= <- _]; [by right; left|by right; right].
Qed.

(** C15: a caller that treats an invalid authorization as a hard failure
    with [raise_error_if_invalid] proceeds only with a valid one, and
    otherwise raises [OAuthError] with reason [None] (no bearer
    credential) or ['access_denied'] (a credential the hook rejected). *)
Theorem get_authorization_hard_failure w a w1 :
  run ResourceProvider.get_authorization w = (Done a, w1) ->
  (run (raise_error_if_invalid a) w1 = (Done tt, w1) /\ truthy (is_valid a) = true) \/
  (run (raise_error_if_invalid a) w1 = (Raised (OAuthError PyNone), w1) /\
   a = fresh_authorization) \/
  run (raise_error_if_invalid a) w1 = (Raised (OAuthError (PyStr "access_denied")), w1).
Proof.
  intros Hrun. unfold raise_error_if_invalid, raise_if.
  destruct (truthy (is_valid a)) eqn:Hv; [by left|right].
  destruct (get_authorization_result w a w1 Hrun) as [->|[Hv'|He]].
  - by left.
  - congruence.
  - right. cbn. by rewrite He.
Qed.

End GetAuthorization.

(** ** Witnesses

    A subclass in the manner of section 4.2 of the spec: the header is
    given, and [validate_access_token] reads the access-token key that
    [persist_token_information] of [src/provider.py] writes, and marks the
    authorization valid when the key is live. *)

Definition demo_validate (t : string) (a : resource_authorization)
    : flow resource_authorization :=
  rep ← redis_async (Redis.GET (Toroauth2.access_key (PyStr t)));
  match rep with
  | Redis.Bulk (Some _) =>
      mret (ResourceAuthorization (is_oauth a) (PyBool true) (PyStr t) (client_id a)
              (expires_in a) (error a))
  | _ => mret a
  end.

Definition demo_resource_hooks (header : pyval) : ResourceHooks :=
  {| get_authorization_header := mret header; validate_access_token := demo_validate |}.

(** Access token [abc] of client [app123], live for an hour. *)
Definition demo_resource_world : world :=
  World (Redis.mkStore {[ "oauth2.access_token:abc" :=
           Redis.mkEntry (Redis.VStr (PyDict [("client_id", PyStr "app123")])) (Some 3600%Z) ]} 0)
    [] (fun i => i) 0 [].

Definition demo_valid : resource_authorization :=
  ResourceAuthorization (PyBool true) (PyBool true) (PyStr "abc") PyNone PyNone PyNone.

Definition demo_denied : resource_authorization :=
  ResourceAuthorization (PyBool true) PyNone PyNone PyNone PyNone (PyStr "access_denied").

Lemma get_authorization_bearer_witness :
  run (@ResourceProvider.get_authorization (demo_resource_hooks (PyStr "Bearer abc")))
    demo_resource_world = (Done demo_valid, demo_resource_world).
Proof.
  refine (@get_authorization_bearer (demo_resource_hooks (PyStr "Bearer abc"))
            demo_resource_world demo_resource_world demo_resource_world "abc" [] demo_valid
            _ _ _ _).
  - split; [done|reflexivity].
  - constructor.
  - reflexivity.
  - vm_compute. reflexivity.
Defined.

Lemma get_authorization_anonymous_witness :
  run (@ResourceProvider.get_authorization (demo_resource_hooks (PyStr "Basic abc")))
    demo_resource_world = (Done fresh_authorization, demo_resource_world).
Proof.
  apply (@get_authorization_anonymous (demo_resource_hooks (PyStr "Basic abc"))
           demo_resource_world (PyStr "Basic abc")).
  - reflexivity.
  - right. exists "Basic abc". split; [reflexivity|]. intros tok rest. vm_compute. congruence.
Defined.

Lemma get_authorization_hard_failure_witness :
  run (@ResourceProvider.get_authorization (demo_resource_hooks (PyStr "Bearer xyz")))
    demo_resource_world = (Done demo_denied, demo_resource_world) /\
  ((run (raise_error_if_invalid demo_denied) demo_resource_world = (Done tt, demo_resource_world) /\
    truthy (is_valid demo_denied) = true) \/
   (run (raise_error_if_invalid demo_denied) demo_resource_world =
      (Raised (OAuthError PyNone), demo_resource_world) /\ demo_denied = fresh_authorization) \/
   run (raise_error_if_invalid demo_denied) demo_resource_world =
     (Raised (OAuthError (PyStr "access_denied")), demo_resource_world)).
Proof.
  assert (H : run (@ResourceProvider.get_authorization (demo_resource_hooks (PyStr "Bearer xyz")))
                demo_resource_world = (Done demo_denied, demo_resource_world))
    by (vm_compute; reflexivity).
  split; [exact H|]. exact (@get_authorization_hard_failure _ _ _ _ H).
Defined.
