(* ===== verification/Grants.v ===== *)
(** * The grants served by the Redis/Mongo provider

    The operations of [AuthorizationProvider] run with the hooks of
    [src/provider.py] ([Toroauth2.hooks]) against the world: the
    authorization request ([get_authorization_code] and its URI adapter),
    the code exchange ([get_token] and its POST adapter), the refresh
    ([refresh_token]) and the revocation ([discard_client_user_tokens]).
    The theorems give each operation's behaviour on every branch, the
    single use of a code, and the 60-second lifetime of every code in every
    reachable world. *)

From stdpp Require Import base strings list gmap.
From Stdlib Require Import ZArith.
From S2P Require Import Prelude Store Utils World Response AuthProvider Toroauth2.

Module Grants.
Import Toroauth2.

#[local] Arguments find_app : simpl never.
#[local] Arguments Redis.lookup : simpl never.
#[local] Arguments Redis.lookup_entry : simpl never.
#[local] Arguments random_ascii_string : simpl never.
#[local] Arguments build_url : simpl never.
#[local] Arguments dict_update : simpl never.
#[local] Arguments dict_get_default : simpl never.
#[local] Arguments code_key : simpl never.
#[local] Arguments access_key : simpl never.
#[local] Arguments refresh_key : simpl never.
#[local] Arguments client_user_key : simpl never.
#[local] Arguments AuthorizationProvider.kwarg : simpl never.
#[local] Arguments AuthorizationProvider.kwargs_rest : simpl never.

(** The entry points of [Toroauth2AuthorizationProvider]: the methods
    it inherits from [AuthorizationProvider], bound to its own hooks. *)
Definition get_authorization_code (p : provider) :=
  @AuthorizationProvider.get_authorization_code (hooks p).
Definition get_token (p : provider) := @AuthorizationProvider.get_token (hooks p).
Definition get_token_from_post_data (p : provider) :=
  @AuthorizationProvider.get_token_from_post_data (hooks p).
Definition get_authorization_code_from_uri (p : provider) :=
  @AuthorizationProvider.get_authorization_code_from_uri (hooks p).
Definition refresh_token (p : provider) := @AuthorizationProvider.refresh_token (hooks p).
#[local] Abbreviation kwarg := AuthorizationProvider.kwarg.

(** The world after [logger.exception(e)]. *)
Definition logged (e : exn) (w : world) : world := (world_handle (LogExn e) w).2.

(** The five parameters the POST adapter requires, in its order. *)
Definition token_params : list string :=
  ["grant_type"; "client_id"; "client_secret"; "redirect_uri"; "code"].

(** The POST data can reach [get_token]: the five parameters are present
    and non-empty, and there is no key [callback] or [self], which
    [gen.Task(self.get_token, **data)] rejects. *)
Definition post_data_ok (data : dict) : bool :=
  forallb (fun x => truthy (kwarg data x)) token_params &&
  negb (dict_mem "callback" data) && negb (dict_mem "self" data).

Ltac keys_neq := solve [auto with toro | apply not_eq_sym; auto with toro].

Ltac alive_tac :=
  unfold Redis.alive, AuthorizationProvider.token_expires_in; cbn;
  first [done | apply Z.ltb_lt; lia].

(** ** Authorization requests *)

(** C5: [get_authorization_code] on every branch.  A [response_type] other
    than ["code"] raises [ReturnValueIgnoredError] and an unknown client
    raises [Exception], both before any write.  For a registered client a
    code is drawn, stored under [code_key] with the client and scope for 60
    seconds, and the redirect carries it, whatever the redirect URI and the
    scope requested: neither is compared with the registered ones. *)
Theorem get_authorization_code_spec p w rt cid ruri params :
  run (get_authorization_code p rt cid ruri params) w =
    if negb (py_eq_str rt "code") then
      (Raised (ReturnValueIgnoredError (PyStr "unsupported_response_type")), w)
    else
      match find_app (w_apps w) cid with
      | None => (Raised PyException, w)
      | Some _ =>
          let scope := dict_get_default params "scope" (PyStr "") in
          let '(code, w1) := world_handle (Random AuthorizationProvider.token_length) w in
          (Done (PyDict [("redirect_uri", PyStr (build_url (py_str ruri)
              (dict_update params [("code", PyStr code); ("response_type", PyNone);
                                   ("client_id", PyNone); ("redirect_uri", PyNone)])))]),
           set_redis (Redis.put (w_redis w1) (code_key cid (PyStr code))
             (Redis.mkEntry (Redis.VStr (PyDict [("client_id", cid); ("scope", scope)]))
                (Some (Redis.now (w_redis w1) + 60)%Z))) w1)
      end.
Proof.
  unfold get_authorization_code, AuthorizationProvider.get_authorization_code.
  destruct (py_eq_str rt "code"); cbn; [|done].
  by destruct (find_app (w_apps w) cid).
Qed.

(** ** The token endpoint *)

(** The POST adapter with its five parameters present is [get_token]
    with the adapter's handler around it. *)
Lemma post_data_run p w data :
  post_data_ok data = true ->
  run (get_token_from_post_data p data) w =
    match run (get_token p (kwarg data "grant_type") (kwarg data "client_id")
                 (kwarg data "client_secret") (kwarg data "redirect_uri") (kwarg data "code")
                 (AuthorizationProvider.kwargs_rest data token_params)) w with
    | (Raised e, w') => run (AuthorizationProvider.handle_adapter_exn false e) w'
    | r => r
    end.
Proof.
  unfold post_data_ok. cbn. intros Hp.
  repeat match goal with
         | Hx : _ && _ = true |- _ => apply andb_true_iff in Hx as [? ?]
         | Hx : negb _ = true |- _ => apply negb_true_iff in Hx
         end.
  unfold get_token_from_post_data, AuthorizationProvider.get_token_from_post_data. rewrite run_catch. cbn.
  unfold AuthorizationProvider.task_kwargs, raise_if.
  repeat match goal with Hx : _ = _ |- _ => rewrite Hx; clear Hx end.
  reflexivity.
Qed.

Lemma handle_adapter_exn_not_done e w r w' :
  run (AuthorizationProvider.handle_adapter_exn false e) w <> (Done r, w').
Proof. unfold AuthorizationProvider.handle_adapter_exn. by destruct (is_standard_error e). Qed.

(** What a successful [get_token] needs: a live code whose data is a
    dict, and no string under the client-user key. *)
Lemma get_token_done_inv p w gt cid cs ruri code params r w1 :
  run (get_token p gt cid cs ruri code params) w = (Done r, w1) ->
  exists d, Redis.lookup (w_redis w) (code_key cid code) = Some (Redis.VStr (PyDict d)) /\
    forall v, Redis.lookup (w_redis w) (client_user_key cid (dict_get_default d "user_id" PyNone))
              <> Some (Redis.VStr v).
Proof.
  unfold get_token, AuthorizationProvider.get_token. cbn.
  destruct (Redis.lookup (w_redis w) (code_key cid code)) as [[v|m]|]; cbn; try discriminate.
  destruct v as [| | | | |d]; cbn; try discriminate.
  intros H. exists d. split; [done|]. intros v Hv.
  unfold Redis.lookup in Hv.
  destruct (Redis.lookup_entry (w_redis w) _) as [[ev ex]|] eqn:E; [|discriminate].
  cbn in Hv. injection Hv as ->.
  rewrite !(Redis.lookup_entry_put_ne _ _ (client_user_key _ _)), Redis.lookup_entry_remove_ne,
    E in H by keys_neq.
  discriminate.
Qed.

(** The statement of [get_token_exchange] below, for the proofs that build on it. *)
Lemma get_token_live_code p w gt cid cs ruri code params d :
  Redis.lookup (w_redis w) (code_key cid code) = Some (Redis.VStr (PyDict d)) ->
  (forall v, Redis.lookup (w_redis w) (client_user_key cid (dict_get_default d "user_id" PyNone))
             <> Some (Redis.VStr v)) ->
  let '(atok, w1) := world_handle (Random AuthorizationProvider.token_length) w in
  let '(rtok, w2) := world_handle (Random AuthorizationProvider.token_length) w1 in
  let t := Redis.now (w_redis w) in
  exists w', run (get_token p gt cid cs ruri code params) w =
      (Done (AuthorizationProvider.token_dict atok rtok), w') /\
    Redis.now (w_redis w') = t /\
    Redis.lookup (w_redis w') (code_key cid code) = None /\
    Redis.lookup_entry (w_redis w') (access_key (PyStr atok)) =
      Some (Redis.mkEntry (Redis.VStr (PyDict d)) (Some (t + 3600)%Z)) /\
    Redis.lookup_entry (w_redis w') (refresh_key cid (PyStr rtok)) =
      Some (Redis.mkEntry (Redis.VStr (PyDict d)) None) /\
    exists m, Redis.lookup (w_redis w') (client_user_key cid (dict_get_default d "user_id" PyNone))
                = Some (Redis.VSet m) /\
              access_key (PyStr atok) ∈ m /\ refresh_key cid (PyStr rtok) ∈ m.
Proof.
  intros Hc Hcu. unfold get_token, AuthorizationProvider.get_token. cbn. rewrite Hc. cbn.
  rewrite !Redis.lookup_entry_put_ne, Redis.lookup_entry_remove_ne by keys_neq.
  destruct (Redis.lookup_entry (w_redis w) _) as [[[v|m] x]|] eqn:E.
  - exfalso. apply (Hcu v). unfold Redis.lookup. by rewrite E.
  - cbn. eexists. split; [reflexivity|]. cbn.
    pose proof (Redis.lookup_entry_alive _ _ _ E) as Ha.
    rewrite !Redis.lookup_put_ne, Redis.lookup_remove_eq by keys_neq.
    rewrite !(Redis.lookup_entry_put_ne _ (client_user_key _ _)) by keys_neq.
    rewrite (Redis.lookup_entry_put_ne _ (refresh_key _ _)) by keys_neq.
    rewrite !Redis.lookup_entry_put_eq by alive_tac.
    rewrite Redis.lookup_put_eq by exact Ha.
    split_and!; try done. eexists; split_and!; [done|set_solver|set_solver].
  - cbn. eexists. split; [reflexivity|]. cbn.
    rewrite !Redis.lookup_put_ne, Redis.lookup_remove_eq by keys_neq.
    rewrite !(Redis.lookup_entry_put_ne _ (client_user_key _ _)) by keys_neq.
    rewrite (Redis.lookup_entry_put_ne _ (refresh_key _ _)) by keys_neq.
    rewrite !Redis.lookup_entry_put_eq by alive_tac.
    rewrite Redis.lookup_put_eq by done.
    split_and!; try done. eexists; split_and!; [done|set_solver|set_solver].
Qed.

(** C4: a code exchange with a live code.  The code is deleted, a fresh
    access token is stored with the code's data for [expires_in] = 3600
    seconds, a fresh refresh token with no expiry, both keys join the
    client-user set, and the callback receives the Bearer token dict.
    Nothing is required of the grant type, the client secret or the
    redirect URI. *)
Theorem get_token_exchange p w gt cid cs ruri code params d :
  Redis.lookup (w_redis w) (code_key cid code) = Some (Redis.VStr (PyDict d)) ->
  (forall v, Redis.lookup (w_redis w) (client_user_key cid (dict_get_default d "user_id" PyNone))
             <> Some (Redis.VStr v)) ->
  let '(atok, w1) := world_handle (Random AuthorizationProvider.token_length) w in
  let '(rtok, w2) := world_handle (Random AuthorizationProvider.token_length) w1 in
  let t := Redis.now (w_redis w) in
  exists w', run (get_token p gt cid cs ruri code params) w =
      (Done (AuthorizationProvider.token_dict atok rtok), w') /\
    Redis.now (w_redis w') = t /\
    Redis.lookup (w_redis w') (code_key cid code) = None /\
    Redis.lookup_entry (w_redis w') (access_key (PyStr atok)) =
      Some (Redis.mkEntry (Redis.VStr (PyDict d)) (Some (t + 3600)%Z)) /\
    Redis.lookup_entry (w_redis w') (refresh_key cid (PyStr rtok)) =
      Some (Redis.mkEntry (Redis.VStr (PyDict d)) None) /\
    exists m, Redis.lookup (w_redis w') (client_user_key cid (dict_get_default d "user_id" PyNone))
                = Some (Redis.VSet m) /\
              access_key (PyStr atok) ∈ m /\ refresh_key cid (PyStr rtok) ∈ m.
Proof. apply get_token_live_code. Qed.

(** POST data that cannot reach [get_token] makes the adapter log one
    exception and halt. *)
Lemma post_data_not_ok p w data :
  post_data_ok data = false ->
  exists e, run (get_token_from_post_data p data) w = (Halted, logged e w).
Proof.
  intros Hc. unfold get_token_from_post_data, AuthorizationProvider.get_token_from_post_data.
  cbn. unfold AuthorizationProvider.task_kwargs, raise_if.
  repeat case_match; cbn; try (eexists; reflexivity).
  unfold post_data_ok in Hc. cbn in Hc.
  repeat match goal with
         | Hx : negb _ = false |- _ => apply negb_false_iff in Hx; rewrite Hx in Hc; clear Hx
         | Hx : dict_mem _ _ = false |- _ => rewrite Hx in Hc; clear Hx
         end.
  discriminate.
Qed.

(** The statement of [post_data_failure] below, for the proofs that build on it. *)
Lemma post_data_halts p w data :
  dict_mem "callback" data = false ->
  post_data_ok data = false \/
  Redis.lookup (w_redis w) (code_key (kwarg data "client_id") (kwarg data "code")) = None ->
  exists msg, run (get_token_from_post_data p data) w = (Halted, logged (TypeError msg) w).
Proof.
  intros Hcb Hcase. unfold get_token_from_post_data, AuthorizationProvider.get_token_from_post_data.
  cbn. unfold AuthorizationProvider.task_kwargs, raise_if. rewrite Hcb.
  repeat case_match; cbn; try (eexists; reflexivity).
  destruct Hcase as [Hc|Hc].
  - unfold post_data_ok in Hc. cbn in Hc. rewrite Hcb in Hc.
    repeat match goal with
           | Hx : negb _ = false |- _ => apply negb_false_iff in Hx; rewrite Hx in Hc; clear Hx
           | Hx : dict_mem _ _ = false |- _ => rewrite Hx in Hc; clear Hx
           end.
    discriminate.
  - rewrite Hc. cbn. eexists; reflexivity.
Qed.

Lemma post_data_ok_callback data : post_data_ok data = true -> dict_mem "callback" data = false.
Proof.
  unfold post_data_ok. intros H.
  apply andb_true_iff in H as [H _]. apply andb_true_iff in H as [_ H]. by apply negb_true_iff.
Qed.

(** A token request that obtains tokens had POST data that could reach
    [get_token]. *)
Lemma post_data_done_ok p w data r w1 :
  run (get_token_from_post_data p data) w = (Done r, w1) -> post_data_ok data = true.
Proof.
  intros H. destruct (post_data_ok data) eqn:Hp; [done|].
  destruct (post_data_not_ok p w data Hp) as [e He]. congruence.
Qed.

(** C9: when the token endpoint cannot exchange (a required parameter
    is missing or empty, the data has a key [self], or no live code is
    stored under the client and code given) and the data has no key
    [callback] (which fails [gen.Task]'s assertion instead), it logs one
    [TypeError] and halts: the callback is never called, so the client's
    request is never answered, and nothing else changes. *)
Theorem post_data_failure p w data :
  dict_mem "callback" data = false ->
  post_data_ok data = false \/
  Redis.lookup (w_redis w) (code_key (kwarg data "client_id") (kwarg data "code")) = None ->
  exists msg, run (get_token_from_post_data p data) w = (Halted, logged (TypeError msg) w).
Proof. apply post_data_halts. Qed.

(** A successful token request leaves no live code under the client and
    code it named. *)
Lemma post_data_consumes p w data r w1 :
  run (get_token_from_post_data p data) w = (Done r, w1) ->
  Redis.lookup (w_redis w1) (code_key (kwarg data "client_id") (kwarg data "code")) = None.
Proof.
  intros H.
  destruct (post_data_ok data) eqn:Hp.
  2: { destruct (post_data_not_ok p w data Hp) as [e Hf]. congruence. }
  rewrite post_data_run in H by done.
  destruct (run (get_token p _ _ _ _ _ _) w) as [[r'|e|] w''] eqn:Ht; cbn in H.
  - injection H as <- <-.
    destruct (get_token_done_inv _ _ _ _ _ _ _ _ _ _ Ht) as (d & Hc & Hcu).
    pose proof (get_token_live_code p w (kwarg data "grant_type") (kwarg data "client_id")
                  (kwarg data "client_secret") (kwarg data "redirect_uri") (kwarg data "code")
                  (AuthorizationProvider.kwargs_rest data token_params) d Hc Hcu) as Hx.
    cbn [world_handle] in Hx. destruct Hx as (w' & Hrun & _ & Hgone & _).
    rewrite Hrun in Ht. by injection Ht as _ <-.
  - exfalso. by apply (handle_adapter_exn_not_done e w'' r w1).
  - discriminate.
Qed.

(** C1: single use.  Once a token request has obtained tokens, repeating
    it obtains nothing: the code is gone, so the endpoint logs a
    [TypeError] and halts, and no token is written. *)
Theorem exchange_single_use p w data r w1 :
  run (get_token_from_post_data p data) w = (Done r, w1) ->
  exists msg, run (get_token_from_post_data p data) w1 = (Halted, logged (TypeError msg) w1).
Proof.
  intros H. apply post_data_halts; [exact (post_data_ok_callback _ (post_data_done_ok _ _ _ _ _ H))|].
  right. exact (post_data_consumes p w data r w1 H).
Qed.

(** ** Reachable worlds

    The provider serves one request at a time: an authorization request
    (the URI adapter), a token request (the POST adapter), a call of
    [refresh_token] or of [discard_client_user_tokens] (public methods that
    no route reaches), or time passing.  A reachable world is one obtained
    from a world with an empty Redis keyspace by serving requests. *)

Inductive request : Type :=
| AuthRequest (uri : string)
| TokenRequest (data : dict)
| RefreshCall (grant_type client_id client_secret refresh_token : pyval) (params : dict)
| RevokeCall (client_id user_id : pyval)
| Wait (seconds : nat).

Definition serve (p : provider) (rq : request) (w : world) : world :=
  match rq with
  | AuthRequest uri => (run (get_authorization_code_from_uri p uri) w).2
  | TokenRequest data => (run (get_token_from_post_data p data) w).2
  | RefreshCall gt cid cs rt params => (run (refresh_token p gt cid cs rt params) w).2
  | RevokeCall cid uid => (run (discard_client_user_tokens p cid uid) w).2
  | Wait n => advance (Z.of_nat n) w
  end.

Inductive reachable (p : provider) : world -> Prop :=
| reachable_init w : Redis.kv (w_redis w) = ∅ -> reachable p w
| reachable_serve rq w : reachable p w -> reachable p (serve p rq w).

Lemma handle_code_ttl X (c : wcmd X) w :
  code_discipline X c -> Redis.ttl_bounded is_code_key 60 (w_redis w) ->
  Redis.ttl_bounded is_code_key 60 (w_redis (world_handle c w).2).
Proof.
  destruct c as [via rc| | | |]; cbn; intros Hc Hb; try done.
  pose proof (Redis.exec_ttl_bounded _ _ _ _ Hc Hb). by destruct (Redis.exec rc (w_redis w)).
Qed.

Lemma run_code_ttl {A} (prog : flow A) w :
  all_calls code_discipline prog -> Redis.ttl_bounded is_code_key 60 (w_redis w) ->
  Redis.ttl_bounded is_code_key 60 (w_redis (run prog w).2).
Proof.
  apply (all_calls_run_inv code_discipline (fun w => Redis.ttl_bounded is_code_key 60 (w_redis w))).
  intros X c s. apply handle_code_ttl.
Qed.

Lemma serve_code_ttl p rq w :
  Redis.ttl_bounded is_code_key 60 (w_redis w) ->
  Redis.ttl_bounded is_code_key 60 (w_redis (serve p rq w)).
Proof.
  assert (Hr : forall n, code_discipline _ (Random n)) by done.
  assert (Hl : forall e, code_discipline _ (LogExn e)) by done.
  destruct rq; unfold serve; intros Hb.
  - apply run_code_ttl; [|done].
    apply get_authorization_code_from_uri_respect; [apply hooks_code_discipline|done..].
  - apply run_code_ttl; [|done].
    apply get_token_from_post_data_respect; [apply hooks_code_discipline|done..].
  - apply run_code_ttl; [|done].
    apply refresh_token_respect; [apply hooks_code_discipline|done..].
  - apply run_code_ttl; [|done]. apply discard_client_user_tokens_cd.
  - apply Redis.tick_ttl_bounded; [lia|done].
Qed.

(** The statement of [code_ttl_invariant] below, for the proofs that build on it. *)
Lemma reachable_code_ttl p w :
  reachable p w -> Redis.ttl_bounded is_code_key 60 (w_redis w).
Proof.
  induction 1 as [w Hempty|rq w _ IH].
  - intros k e _ Hk. rewrite Hempty, lookup_empty in Hk. discriminate.
  - by apply serve_code_ttl.
Qed.

(** C3: in every reachable world, every visible authorization code
    expires at most 60 seconds from now. *)
Theorem code_ttl_invariant p w :
  reachable p w -> Redis.ttl_bounded is_code_key 60 (w_redis w).
Proof. apply reachable_code_ttl. Qed.

(** C10: after 60 seconds without a new authorization request, no token
    request of any reachable world obtains tokens: each one (without a
    key [callback], which fails earlier with [AssertionError]) logs a
    [TypeError] and halts, leaving the store as it was. *)
Theorem late_exchange_fails p w data :
  reachable p w -> dict_mem "callback" data = false ->
  exists msg, run (get_token_from_post_data p data) (advance 60 w) =
    (Halted, logged (TypeError msg) (advance 60 w)).
Proof.
  intros Hr Hcb. apply post_data_halts; [exact Hcb|]. right. cbn.
  apply (Redis.ttl_bounded_expired is_code_key); [lia|exact (reachable_code_ttl p w Hr)|].
  apply is_code_key_code_key.
Qed.

(** ** Refresh *)

Ltac answered_400 :=
  let H := fresh in intros H; injection H as <- <-; split; reflexivity.

(** C13: [refresh_token] with the provider the handlers build, which has no
    attribute [r]: with the right grant type it raises [DoesNotExist] for
    an unknown client and [AttributeError] otherwise; it never touches the
    store. *)
Theorem refresh_token_fresh_provider w gt cid cs rt params :
  run (refresh_token fresh_provider gt cid cs rt params) w =
    if negb (py_eq_str gt "refresh_token") then
      (Done (Provider._make_json_error_response "unsupported_grant_type"), w)
    else
      match find_app (w_apps w) cid with
      | None => (Raised DoesNotExist, w)
      | Some _ => (Raised (AttributeError "r"), w)
      end.
Proof.
  unfold refresh_token, AuthorizationProvider.refresh_token.
  destruct (py_eq_str gt "refresh_token"); cbn; [|done].
  by destruct (find_app (w_apps w) cid).
Qed.

(** C12: whatever the provider object, [refresh_token] never issues
    tokens: [validate_client_id] is a [@gen.engine] method, so the direct
    call returns [None] and every call that returns answers with a 400
    error, leaving the store unchanged. *)
Theorem refresh_token_never_rotates p w gt cid cs rt params r w1 :
  run (refresh_token p gt cid cs rt params) w = (Done r, w1) ->
  status_code r = 400%Z /\ w_redis w1 = w_redis w.
Proof.
  unfold refresh_token, AuthorizationProvider.refresh_token.
  destruct (py_eq_str gt "refresh_token"); cbn; [|answered_400].
  destruct (find_app (w_apps w) cid); cbn; [|discriminate].
  unfold self_r. destruct (has_r p); cbn; [|discriminate].
  destruct (Redis.lookup (w_redis w) _) as [[[| | | | |d]|m]|]; cbn; try discriminate;
    try (case_match; cbn); answered_400.
Qed.

(** ** Witnesses: the scenario of the spec

    Client [app123] with secret [s3cr3t], redirect URI
    [https://client.example/cb] and scope [read]; an entropy source fixed
    for the run; an empty store at time 0. *)

Definition demo_app : app := App "app123" "s3cr3t" "https://client.example/cb" "read".

Definition demo_world : world :=
  World (Redis.mkStore ∅ 0) [demo_app] (fun i => i * 7) 0 [].

Definition demo_auth_uri : string :=
  "/oauth/auth?response_type=code&client_id=app123&redirect_uri=https://client.example/cb&scope=read".

(** The world after step 1 of the scenario, the authorization request. *)
Definition demo_issued : world := serve fresh_provider (AuthRequest demo_auth_uri) demo_world.

(** The code issued in step 1. *)
Definition demo_code : string := random_ascii_string (fun i => i * 7) 40.

(** Step 2 of the scenario, the token request. *)
Definition demo_post : dict :=
  [("grant_type", PyStr "authorization_code"); ("client_id", PyStr "app123");
   ("client_secret", PyStr "s3cr3t"); ("redirect_uri", PyStr "https://client.example/cb");
   ("code", PyStr demo_code)].

Definition demo_data : dict := [("client_id", PyStr "app123"); ("scope", PyStr "read")].

Definition demo_exchanged : outcome pyval * world :=
  run (get_token_from_post_data fresh_provider demo_post) demo_issued.

Lemma demo_issued_reachable : reachable fresh_provider demo_issued.
Proof. apply reachable_serve, reachable_init. reflexivity. Qed.

Lemma exchange_single_use_witness :
  exists msg, run (get_token_from_post_data fresh_provider demo_post) demo_exchanged.2 =
    (Halted, logged (TypeError msg) demo_exchanged.2).
Proof.
  apply (exchange_single_use fresh_provider demo_issued demo_post
           (match demo_exchanged.1 with Done r => r | _ => PyNone end)).
  vm_compute. reflexivity.
Defined.

Lemma code_ttl_invariant_witness : Redis.ttl_bounded is_code_key 60 (w_redis demo_issued).
Proof. apply (code_ttl_invariant fresh_provider). apply demo_issued_reachable. Defined.

Lemma late_exchange_fails_witness :
  exists msg, run (get_token_from_post_data fresh_provider demo_post) (advance 60 demo_issued) =
    (Halted, logged (TypeError msg) (advance 60 demo_issued)).
Proof. apply (late_exchange_fails fresh_provider); [apply demo_issued_reachable|reflexivity]. Defined.

Lemma get_token_exchange_witness :
  exists w', run (get_token fresh_provider (PyStr "authorization_code") (PyStr "app123")
                    (PyStr "wrong-secret") (PyStr "https://elsewhere.example/") (PyStr demo_code) [])
               demo_issued =
             (Done (AuthorizationProvider.token_dict
                      (random_ascii_string (fun i => i * 7 + 280) 40)
                      (random_ascii_string (fun i => i * 7 + 560) 40)), w') /\
    Redis.lookup (w_redis w') (code_key (PyStr "app123") (PyStr demo_code)) = None.
Proof.
  pose proof (get_token_exchange fresh_provider demo_issued (PyStr "authorization_code")
    (PyStr "app123") (PyStr "wrong-secret") (PyStr "https://elsewhere.example/")
    (PyStr demo_code) [] demo_data) as Hx.
  destruct Hx as (w' & Hrun & _ & Hgone & _).
  - vm_compute. reflexivity.
  - intros v. vm_compute. discriminate.
  - exists w'. split; [|exact Hgone]. rewrite Hrun. vm_compute. reflexivity.
Defined.

Lemma post_data_failure_witness :
  exists msg, run (get_token_from_post_data fresh_provider
                     [("grant_type", PyStr "authorization_code"); ("client_id", PyStr "app123")])
                  demo_issued =
    (Halted, logged (TypeError msg) demo_issued).
Proof. apply post_data_failure; [reflexivity|left; reflexivity]. Defined.

Lemma refresh_token_never_rotates_witness :
  status_code (Provider._make_json_error_response "invalid_client") = 400%Z /\
  w_redis (run (refresh_token (Provider true) (PyStr "refresh_token") (PyStr "app123")
                  (PyStr "s3cr3t") (PyStr "any") []) demo_issued).2 = w_redis demo_issued.
Proof.
  apply (refresh_token_never_rotates (Provider true) demo_issued (PyStr "refresh_token")
           (PyStr "app123") (PyStr "s3cr3t") (PyStr "any") []).
  vm_compute. reflexivity.
Defined.

End Grants.
