(* ===== verification/Server.v ===== *)
(** * The HTTP handlers: [src/provider_server.py]

    The Tornado application routes [/oauth/auth] to [AuthHandler],
    [/oauth/token] to [TokenHandler] and [/devices] to [DevicesHandler].
    The first two build a fresh [Toroauth2AuthorizationProvider] per
    request and wait, through [gen.Task], for the URI or POST adapter.

    Both are [@tornado.web.asynchronous] and [@tornado.gen.engine]: the
    request is answered when the method calls [redirect] or [finish], or
    with a 500 when an exception escapes it.  A method that only calls
    [write], or that never resumes because its task never calls back,
    leaves the request open: [asynchronous] finishes a request by itself
    only for a method that returns a Future, which a [gen.engine] method
    does not.  [answer] is this part of Tornado's behaviour. *)

From stdpp Require Import base strings list gmap.
From Stdlib Require Import ZArith Ascii.
From S2P Require Import Prelude Store Utils World Response AuthProvider Toroauth2 Grants.

Module Server.
Import Toroauth2.

#[local] Arguments random_ascii_string : simpl never.
#[local] Arguments build_url : simpl never.

(** What a handler method does with its request. *)
Inductive handler_action : Type :=
| Redirect (url : string)     (** [self.redirect(url)]: 302 and finish *)
| Finish (chunk : pyval)      (** [self.finish(chunk)] *)
| Write (chunk : string).     (** [self.write(chunk)], the request left open *)

(** [v[k]] for a key of a dict. *)
Definition getitem (v : pyval) (k : string) : flow pyval :=
  match v with
  | PyDict d => match dict_get d k with Some x => mret x | None => Raise (KeyError k) end
  | _ => Raise (TypeError "object has no attribute '__getitem__'")
  end.

(** [AuthHandler.get] (lines 9-22). *)
Definition auth_handler_get (uri : string) : flow handler_action :=
  let provider := fresh_provider in
  result ← Grants.get_authorization_code_from_uri provider uri;
  if truthy result then
    url ← getitem result "redirect_uri"; mret (Redirect (py_str url))
  else mret (Write "no response").

(** [{k: self.request.arguments[k][0] for k in self.request.arguments.iterkeys()}]
    (line 32), over the request arguments in the dict's order. *)
Fixpoint first_arguments (acc : dict) (arguments : list (string * list string)) : flow dict :=
  match arguments with
  | [] => mret acc
  | (k, vs) :: rest =>
      match vs with
      | v :: _ => first_arguments (dict_set acc k (PyStr v)) rest
      | [] => Raise (IndexError "list index out of range")
      end
  end.

(** [TokenHandler.post] (lines 24-39). *)
Definition token_handler_post (arguments : list (string * list string)) : flow handler_action :=
  let provider := fresh_provider in
  data ← first_arguments [] arguments;
  result ← Grants.get_token_from_post_data provider data;
  if truthy result then mret (Finish result) else mret (Write "no access token").

(** What the client receives. *)
Inductive http_answer : Type :=
| Answer (status : Z) (location : option string) (body : option pyval)
| NoAnswer.

(** The answer to an [@asynchronous] [@gen.engine] handler method:
    [redirect] sends a 302 with [Location] (tornado resolves the URL
    against the request URI, which leaves an absolute URL as it is);
    [finish(dict)] sends the dict as JSON with status 200; an exception
    gives a 500; [write] alone, or a method that never resumes, sends
    nothing. *)
Definition answer (o : outcome handler_action) : http_answer :=
  match o with
  | Done (Redirect url) => Answer 302 (Some url) None
  | Done (Finish chunk) => Answer 200 None (Some chunk)
  | Done (Write _) => NoAnswer
  | Raised _ => Answer 500 None None
  | Halted => NoAnswer
  end.

(** A request as the application receives it. *)
Inductive http_request : Type :=
| HttpGet (uri : string)
| HttpPost (uri : string) (arguments : list (string * list string)).

(** [request.path]: the URI before its query. *)
Definition request_path (uri : string) : string := (split_once "?"%char uri).1.

(** [application] (lines 45-49): the route table, then the method.  A
    route whose handler lacks the method answers 405, an unknown path
    404.  [DevicesHandler.get] (lines 41-43) is synchronous: Tornado
    finishes the request after it writes. *)
Definition application (rq : http_request) (w : world) : http_answer * world :=
  match rq with
  | HttpGet uri =>
      let path := request_path uri in
      if String.eqb path "/oauth/auth" then
        let '(o, w') := run (auth_handler_get uri) w in (answer o, w')
      else if String.eqb path "/oauth/token" then (Answer 405 None None, w)
      else if String.eqb path "/devices" then (Answer 200 None (Some (PyStr "devices")), w)
      else (Answer 404 None None, w)
  | HttpPost uri arguments =>
      let path := request_path uri in
      if String.eqb path "/oauth/token" then
        let '(o, w') := run (token_handler_post arguments) w in (answer o, w')
      else if String.eqb path "/oauth/auth" then (Answer 405 None None, w)
      else if String.eqb path "/devices" then (Answer 405 None None, w)
      else (Answer 404 None None, w)
  end.

(** The redirect the URI adapter builds: the redirect URI of the query,
    with the query's other parameters and a code [code]. *)
Definition code_location (uri code : string) : string :=
  let params := url_query_params uri in
  build_url (py_str (AuthorizationProvider.kwarg params "redirect_uri"))
    (dict_update (AuthorizationProvider.kwargs_rest params ["response_type"; "client_id"; "redirect_uri"])
       [("code", PyStr code); ("response_type", PyNone);
        ("client_id", PyNone); ("redirect_uri", PyNone)]).

(** ** The requests of the scenario of section 8 of the spec *)

Definition scenario_token_request : list (string * list string) :=
  [("grant_type", ["authorization_code"]); ("client_id", ["app123"]);
   ("client_secret", ["s3cr3t"]); ("redirect_uri", ["https://client.example/cb"]);
   ("code", [Grants.demo_code])].

(** ** The authorization endpoint *)

Lemma uri_adapter_no_halt p uri : no_halt (Grants.get_authorization_code_from_uri p uri).
Proof.
  unfold Grants.get_authorization_code_from_uri,
    AuthorizationProvider.get_authorization_code_from_uri,
    AuthorizationProvider.handle_adapter_exn, _handle_exception, AuthorizationProvider.task_kwargs.
  no_halt_tac. unfold AuthorizationProvider.get_authorization_code. no_halt_tac.
  all: cbn; unfold validate_client_id, persist_authorization_code, engine, redis_async, redis_via,
    AuthorizationProvider.generate_authorization_code; no_halt_tac.
Qed.

(** C8: the authorization endpoint always answers, and with one of two
    answers only: a 500, or a 302 to the redirect URI named in the query
    carrying exactly the query's other parameters and a code.  No error
    redirect (a parameter [error] added by the provider) and no 400 is
    ever sent, whatever the request and the stored state. *)
Theorem auth_endpoint_answers w uri :
  answer (run (auth_handler_get uri) w).1 = Answer 500 None None \/
  exists code, answer (run (auth_handler_get uri) w).1 =
    Answer 302 (Some (code_location uri code)) None.
Proof.
  unfold auth_handler_get. rewrite run_bind.
  destruct (run (Grants.get_authorization_code_from_uri fresh_provider uri) w)
    as [[r|e|] w'] eqn:E; cbn [and_then].
  - destruct (all_rets_run _ _ _ _ _ (get_authorization_code_from_uri_rets uri) E)
      as [code ->].
    right. exists code. reflexivity.
  - by left.
  - exfalso. apply (no_halt_run _ w (uri_adapter_no_halt fresh_provider uri)). by rewrite E.
Qed.

(** C6: an open redirector.  For a registered client, an authorization
    request with [response_type=code] (and no key [callback] or [self],
    which [gen.Task] rejects) redirects to whatever [redirect_uri] the
    query names, with a fresh code appended; the registered redirect URI
    of the client is never consulted. *)
Theorem auth_endpoint_open_redirect w uri a :
  let params := url_query_params uri in
  py_eq_str (AuthorizationProvider.kwarg params "response_type") "code" = true ->
  dict_mem "client_id" params = true -> dict_mem "redirect_uri" params = true ->
  dict_mem "callback" params = false -> dict_mem "self" params = false ->
  find_app (w_apps w) (AuthorizationProvider.kwarg params "client_id") = Some a ->
  exists code, answer (run (auth_handler_get uri) w).1 =
    Answer 302 (Some (code_location uri code)) None.
Proof.
  intros params Hrt Hcid Hruri Hcb Hself Happ.
  assert (Hrt' : dict_mem "response_type" params = true).
  { revert Hrt. unfold AuthorizationProvider.kwarg, dict_get_default, dict_mem.
    by destruct (dict_get params "response_type"). }
  unfold auth_handler_get, Grants.get_authorization_code_from_uri,
    AuthorizationProvider.get_authorization_code_from_uri, AuthorizationProvider.task_kwargs.
  fold params. rewrite run_bind, run_catch. cbn -[params].
  rewrite Hrt', Hcid, Hruri, Hcb, Hself. cbn -[params].
  unfold AuthorizationProvider.get_authorization_code. rewrite Hrt. cbn -[params].
  rewrite Happ. cbn -[params]. by eexists.
Qed.

(** ** The token endpoint *)

(** C7: the token endpoint answers 200 with a Bearer token dict, or 500,
    or not at all.  It never sends an OAuth error response: no 400
    [invalid_request], [invalid_client] or [invalid_grant]. *)
Theorem token_endpoint_answers w arguments :
  answer (run (token_handler_post arguments) w).1 = NoAnswer \/
  answer (run (token_handler_post arguments) w).1 = Answer 500 None None \/
  exists access refresh, answer (run (token_handler_post arguments) w).1 =
    Answer 200 None (Some (AuthorizationProvider.token_dict access refresh)).
Proof.
  unfold token_handler_post. rewrite run_bind.
  destruct (run (first_arguments [] arguments) w) as [[data|e|] w1]; cbn [and_then];
    [|by right; left|by left].
  rewrite run_bind.
  destruct (run (Grants.get_token_from_post_data fresh_provider data) w1)
    as [[r|e|] w2] eqn:E; cbn [and_then]; [|by right; left|by left].
  destruct (all_rets_run _ _ _ _ _ (get_token_from_post_data_rets data) E)
    as (access & refresh & ->).
  right; right. by exists access, refresh.
Qed.

(** ** Witnesses *)

(** An authorization request for [app123] naming another site. *)
Definition foreign_redirect_uri : string :=
  "/oauth/auth?response_type=code&client_id=app123&redirect_uri=https://attacker.example/".

Lemma auth_endpoint_open_redirect_witness :
  exists code, answer (run (auth_handler_get foreign_redirect_uri) Grants.demo_world).1 =
    Answer 302 (Some (code_location foreign_redirect_uri code)) None.
Proof.
  apply (auth_endpoint_open_redirect Grants.demo_world foreign_redirect_uri Grants.demo_app);
    vm_compute; reflexivity.
Defined.

End Server.
