(* ===== verification/Concurrency.v ===== *)
(** * Concurrent requests on the IOLoop

    Tornado runs every request on one thread.  A handler runs until it
    suspends on a [yield gen.Task(...)] of the asynchronous Redis client or
    of Mongo ([is_yield]); while it waits, the IOLoop resumes other
    handlers.  The synchronous steps between two yields (drawing a token,
    logging, the synchronous Redis client, [Application.objects.get]) run
    without interruption.

    [to_yield] runs a flow up to its next yield point, [resume i] lets the
    store answer the command flow [i] waits on and runs the flow up to its
    next yield point, and [schedule] is a sequence of such resumptions: any
    order the store's answers can arrive in.  A store command executes
    atomically when it is answered, as Redis executes one command at a
    time. *)

From stdpp Require Import base strings list gmap.
From Stdlib Require Import ZArith.
From S2P Require Import Prelude Store Utils World Response AuthProvider Toroauth2 Grants Server.

Module Concurrency.
Import Toroauth2 Server.

(** The synchronous part of a flow, up to its next yield point. *)
Fixpoint to_yield {A} (p : flow A) (w : world) : flow A * world :=
  match p with
  | Call c k =>
      if is_yield c then (p, w)
      else let '(x, w') := world_handle c w in to_yield (k x) w'
  | _ => (p, w)
  end.

Record config (A : Type) : Type := Config { threads : list (flow A); cworld : world }.
Arguments Config {A}.
Arguments threads {A}.
Arguments cworld {A}.

(** Requests arriving one after another: each handler runs to its first
    yield point. *)
Fixpoint start {A} (ps : list (flow A)) (w : world) : config A :=
  match ps with
  | [] => Config [] w
  | p :: ps' =>
      let '(p', w1) := to_yield p w in
      let cfg := start ps' w1 in
      Config (p' :: threads cfg) (cworld cfg)
  end.

(** The store answers the command flow [i] waits on; the flow runs to its
    next yield point. *)
Definition resume {A} (i : nat) (cfg : config A) : option (config A) :=
  match threads cfg !! i with
  | Some (Call c k) =>
      let '(x, w1) := world_handle c (cworld cfg) in
      let '(p', w2) := to_yield (k x) w1 in
      Some (Config (<[i := p']> (threads cfg)) w2)
  | _ => None
  end.

Fixpoint schedule {A} (l : list nat) (cfg : config A) : option (config A) :=
  match l with
  | [] => Some cfg
  | i :: l' => match resume i cfg with Some cfg' => schedule l' cfg' | None => None end
  end.

(** A flow that has finished, with its outcome; [None] while it waits. *)
Definition finished {A} (p : flow A) : option (outcome A) :=
  match p with
  | Ret a => Some (Done a)
  | Raise e => Some (Raised e)
  | Halt => Some Halted
  | Call _ _ => None
  end.

(** The requests a client sends to the two endpoints. *)
Inductive client_request : Type :=
| Authorize (uri : string)
| Exchange (arguments : list (string * list string)).

Definition handler_of (rq : client_request) : flow handler_action :=
  match rq with
  | Authorize uri => auth_handler_get uri
  | Exchange arguments => token_handler_post arguments
  end.

(** ** One flow alone: the interleaving semantics refines [run] *)

Lemma schedule_app {A} l1 l2 (cfg : config A) :
  schedule (l1 ++ l2) cfg = match schedule l1 cfg with Some cfg' => schedule l2 cfg' | None => None end.
Proof.
  revert cfg. induction l1 as [|i l1 IH]; intros cfg; [done|]. cbn.
  destruct (resume i cfg); [apply IH|done].
Qed.

(** Flow [i] of a pool, resumed alone until it finishes, ends as [run]
    says, and the other flows stay as they are. *)
Lemma resume_alone {A} (ts : list (flow A)) i (p : flow A) w :
  i < length ts ->
  exists n q w', schedule (repeat i n) (Config (<[i:=(to_yield p w).1]> ts) (to_yield p w).2) =
      Some (Config (<[i:=q]> ts) w') /\
    finished q = Some (run p w).1 /\ w' = (run p w).2.
Proof.
  intros Hi. revert w. induction p as [a|e| |X c k IH]; intros w.
  - exists 0, (Ret a), w. by repeat split.
  - exists 0, (Raise e), w. by repeat split.
  - exists 0, Halt, w. by repeat split.
  - cbn [to_yield run]. unfold handle, world_handler.
    destruct (world_handle c w) as [x w1] eqn:Hc.
    destruct (is_yield c).
    + destruct (IH x w1) as (n & q & w' & Hs & Hq & Hw).
      exists (S n), q, w'. split; [|split; [exact Hq|exact Hw]].
      cbn [repeat schedule]. unfold resume. cbn [fst snd threads cworld].
      rewrite list_lookup_insert_eq by exact Hi. rewrite Hc.
      destruct (to_yield (k x) w1) as [p' w2]. by rewrite list_insert_insert_eq.
    + apply IH.
Qed.

(** A request served alone is answered as in the sequential model:
    some number of resumptions of its one flow finishes it with the
    outcome and the world of [run]. *)
Theorem schedule_serial {A} (p : flow A) w :
  exists n q w', schedule (repeat 0 n) (start [p] w) = Some (Config [q] w') /\
    finished q = Some (run p w).1 /\ w' = (run p w).2.
Proof.
  destruct (resume_alone [p] 0 p w) as (n & q & w' & Hs & Hq & Hw); [cbn; lia|].
  exists n, q, w'. split; [|done]. cbn [start]. by destruct (to_yield p w).
Qed.

(** ** Invariants of the store under every interleaving *)

Section Interleaved.
Context (P : forall X, wcmd X -> Prop) (Inv : world -> Prop).
Hypothesis step_inv : forall X (c : wcmd X) w, P X c -> Inv w -> Inv (world_handle c w).2.

Lemma to_yield_inv {A} (p : flow A) w :
  all_calls P p -> Inv w -> all_calls P (to_yield p w).1 /\ Inv (to_yield p w).2.
Proof.
  revert w. induction p as [a|e| |X c k IH]; intros w Hp Hw; try done.
  destruct Hp as [Hc Hk]. cbn [to_yield].
  destruct (is_yield c); [done|].
  pose proof (step_inv X c w Hc Hw) as Hw1.
  destruct (world_handle c w) as [x w1]. by apply IH.
Qed.

Lemma resume_inv {A} i (cfg cfg' : config A) :
  resume i cfg = Some cfg' ->
  Forall (all_calls P) (threads cfg) -> Inv (cworld cfg) ->
  Forall (all_calls P) (threads cfg') /\ Inv (cworld cfg').
Proof.
  unfold resume. intros Hr Hts Hw.
  destruct (threads cfg !! i) as [[| | |X c k]|] eqn:Hi; try discriminate.
  pose proof (Forall_lookup_1 _ _ _ _ Hts Hi) as [Hc Hk].
  pose proof (step_inv X c _ Hc Hw) as Hw1.
  destruct (world_handle c (cworld cfg)) as [x w1].
  destruct (to_yield_inv (k x) w1 (Hk x) Hw1) as [Hp' Hw2].
  destruct (to_yield (k x) w1) as [p' w2]. injection Hr as <-. cbn.
  split; [by apply Forall_insert|done].
Qed.

Lemma schedule_inv {A} l (cfg cfg' : config A) :
  schedule l cfg = Some cfg' ->
  Forall (all_calls P) (threads cfg) -> Inv (cworld cfg) ->
  Forall (all_calls P) (threads cfg') /\ Inv (cworld cfg').
Proof.
  revert cfg. induction l as [|i l IH]; cbn; intros cfg Hs Hts Hw.
  - by injection Hs as <-.
  - destruct (resume i cfg) as [cfg1|] eqn:Hr; [|discriminate].
    destruct (resume_inv i cfg cfg1 Hr Hts Hw). by apply (IH cfg1).
Qed.

Lemma start_inv {A} (ps : list (flow A)) w :
  Forall (all_calls P) ps -> Inv w ->
  Forall (all_calls P) (threads (start ps w)) /\ Inv (cworld (start ps w)).
Proof.
  revert w. induction ps as [|p ps IH]; intros w Hps Hw; cbn; [done|].
  inversion Hps as [|? ? Hp Hps']; subst.
  destruct (to_yield_inv p w Hp Hw) as [Hp' Hw1].
  destruct (to_yield p w) as [p' w1]. cbn.
  destruct (IH w1 Hps' Hw1). split; [by constructor|done].
Qed.
End Interleaved.

Lemma first_arguments_calls (P : forall X, wcmd X -> Prop) acc arguments :
  all_calls P (first_arguments acc arguments).
Proof.
  revert acc. induction arguments as [|[k [|v vs]] rest IH]; intros acc; cbn; [done|done|apply IH].
Qed.

Lemma handler_of_code_discipline rq : all_calls code_discipline (handler_of rq).
Proof.
  assert (Hr : forall n, code_discipline _ (Random n)) by done.
  assert (Hl : forall e, code_discipline _ (LogExn e)) by done.
  destruct rq as [uri|arguments]; cbn.
  - unfold auth_handler_get. apply all_calls_bind.
    + apply get_authorization_code_from_uri_respect; [apply hooks_code_discipline|done..].
    + intros r. unfold getitem. by repeat case_match.
  - unfold token_handler_post. apply all_calls_bind; [apply first_arguments_calls|].
    intros data. apply all_calls_bind.
    + apply get_token_from_post_data_respect; [apply hooks_code_discipline|done..].
    + intros r. by case_match.
Qed.

(** C11: under every interleaving of any authorization and token
    requests, every visible authorization code still expires within 60
    seconds: each command of each handler respects the code discipline. *)
Theorem concurrent_code_ttl (rqs : list client_request) w l cfg :
  Redis.ttl_bounded is_code_key 60 (w_redis w) ->
  schedule l (start (map handler_of rqs) w) = Some cfg ->
  Redis.ttl_bounded is_code_key 60 (w_redis (cworld cfg)).
Proof.
  intros Hw Hs.
  set (Inv := fun w => Redis.ttl_bounded is_code_key 60 (w_redis w)).
  assert (Hstep : forall X (c : wcmd X) w, code_discipline X c -> Inv w -> Inv (world_handle c w).2)
    by (intros X c w'; apply Grants.handle_code_ttl).
  assert (Hall : Forall (all_calls code_discipline) (map handler_of rqs)).
  { clear Hs. induction rqs as [|rq rqs IH]; cbn;
      [constructor|constructor; [apply handler_of_code_discipline|exact IH]]. }
  destruct (start_inv _ Inv Hstep _ w Hall Hw) as [Hts Hw0].
  exact (proj2 (schedule_inv _ Inv Hstep l _ cfg Hs Hts Hw0)).
Qed.

(** ** Two exchanges of one code *)

#[local] Arguments find_app : simpl never.
#[local] Arguments Redis.lookup : simpl never.
#[local] Arguments Redis.lookup_entry : simpl never.
#[local] Arguments Redis.put : simpl never.
#[local] Arguments Redis.remove : simpl never.
#[local] Arguments random_ascii_string : simpl never.
#[local] Arguments dict_get_default : simpl never.
#[local] Arguments code_key : simpl never.
#[local] Arguments access_key : simpl never.
#[local] Arguments refresh_key : simpl never.
#[local] Arguments client_user_key : simpl never.
#[local] Arguments AuthorizationProvider.kwarg : simpl never.
#[local] Arguments AuthorizationProvider.kwargs_rest : simpl never.
#[local] Abbreviation kwarg := AuthorizationProvider.kwarg.

(** The shape of a token request that can reach [get_token]: it first
    suspends on the GET of its code, with continuation [K]; once the GET
    answers the code's data [d], it runs to its next yield point without
    touching the world; and from any world whose client-user key holds no
    string it finishes with a Bearer token dict, leaving a set under that
    key. *)
Lemma token_post_shape arguments data d :
  first_arguments [] arguments = mret data -> Grants.post_data_ok data = true ->
  exists K D,
    (forall w, to_yield (token_handler_post arguments) w =
       (Call (RedisCmd AsyncClient (Redis.GET (code_key (kwarg data "client_id") (kwarg data "code"))))
          K, w)) /\
    (forall w, to_yield (K (Redis.Bulk (Some (PyDict d)))) w = (D, w)) /\
    (forall w, (forall v, Redis.lookup (w_redis w)
                  (client_user_key (kwarg data "client_id") (dict_get_default d "user_id" PyNone))
                  <> Some (Redis.VStr v)) ->
       exists a r w', run (K (Redis.Bulk (Some (PyDict d)))) w =
           (Done (Finish (AuthorizationProvider.token_dict a r)), w') /\
         exists m, Redis.lookup (w_redis w')
                  (client_user_key (kwarg data "client_id") (dict_get_default d "user_id" PyNone))
                  = Some (Redis.VSet m)).
Proof.
  intros Hfa Hok.
  unfold Grants.post_data_ok in Hok. cbn in Hok.
  repeat match goal with
         | Hx : _ && _ = true |- _ => apply andb_true_iff in Hx as [? ?]
         | Hx : negb _ = true |- _ => apply negb_true_iff in Hx
         end.
  do 2 eexists. split; [|split].
  - intros w. unfold token_handler_post. rewrite Hfa. cbn.
    unfold raise_if, AuthorizationProvider.task_kwargs.
    repeat match goal with Hx : _ = _ |- _ => rewrite Hx end.
    cbn. reflexivity.
  - intros w. cbn. reflexivity.
  - intros w Hcu. cbn.
    rewrite !Redis.lookup_entry_put_ne, Redis.lookup_entry_remove_ne
      by solve [auto with toro | apply not_eq_sym; auto with toro].
    destruct (Redis.lookup_entry (w_redis w) _) as [[[v|m] x]|] eqn:E.
    + exfalso. apply (Hcu v). unfold Redis.lookup. by rewrite E.
    + pose proof (Redis.lookup_entry_alive _ _ _ E) as Ha.
      cbn. do 3 eexists. split; [reflexivity|].
      eexists. unfold set_redis. cbn [w_redis]. rewrite Redis.lookup_put_eq by exact Ha. reflexivity.
    + cbn. do 3 eexists. split; [reflexivity|].
      eexists. unfold set_redis. cbn [w_redis]. rewrite Redis.lookup_put_eq by done. reflexivity.
Qed.

(** C2: the code take is not atomic.  In every world where the code a
    token request names is live with dict data (and its client-user key
    holds no string), two concurrent copies of that request are both
    answered 200 with a Bearer token set when the store answers both GETs
    before either DEL, each request then running alone: one code yields
    two token sets, where sections 5 and 8 of the spec allow at most one
    exchange to succeed. *)
Theorem concurrent_double_exchange w arguments data d :
  first_arguments [] arguments = mret data -> Grants.post_data_ok data = true ->
  Redis.lookup (w_redis w) (code_key (kwarg data "client_id") (kwarg data "code")) =
    Some (Redis.VStr (PyDict d)) ->
  (forall v, Redis.lookup (w_redis w)
     (client_user_key (kwarg data "client_id") (dict_get_default d "user_id" PyNone))
     <> Some (Redis.VStr v)) ->
  exists n0 n1 cfg a1 r1 a2 r2,
    schedule ([0; 1] ++ repeat 0 n0 ++ repeat 1 n1)
      (start (map handler_of [Exchange arguments; Exchange arguments]) w) = Some cfg /\
    map (fun p => option_map answer (finished p)) (threads cfg) =
      [Some (Answer 200 None (Some (AuthorizationProvider.token_dict a1 r1)));
       Some (Answer 200 None (Some (AuthorizationProvider.token_dict a2 r2)))].
Proof.
  intros Hfa Hok Hc Hcu.
  destruct (token_post_shape arguments data d Hfa Hok) as (K & D & HA & HD & HB).
  set (w2 := set_redis (w_redis (set_redis (w_redis w) w)) (set_redis (w_redis w) w)).
  (* both GETs are answered: the two flows wait on their DEL *)
  assert (Hgets : schedule [0; 1] (start (map handler_of [Exchange arguments; Exchange arguments]) w)
                  = Some (Config [D; D] w2)).
  { cbn [map handler_of start]. rewrite !HA. cbn. rewrite Hc. cbn. rewrite HD. cbn.
    rewrite Hc. cbn. rewrite HD. reflexivity. }
  assert (Hcu2 : forall v, Redis.lookup (w_redis w2)
     (client_user_key (kwarg data "client_id") (dict_get_default d "user_id" PyNone))
     <> Some (Redis.VStr v)) by exact Hcu.
  (* the first flow alone *)
  destruct (HB w2 Hcu2) as (a1 & r1 & w3 & Hrun1 & m & Hm).
  destruct (resume_alone [D; D] 0 (K (Redis.Bulk (Some (PyDict d)))) w2) as (n0 & q0 & w3' & Hs0 & Hq0 & Hw3); [cbn; lia|].
  rewrite HD in Hs0. cbn in Hs0. rewrite Hrun1 in Hq0, Hw3. cbn in Hq0, Hw3. subst w3'.
  (* the second flow alone *)
  assert (Hcu3 : forall v, Redis.lookup (w_redis w3)
     (client_user_key (kwarg data "client_id") (dict_get_default d "user_id" PyNone))
     <> Some (Redis.VStr v)) by (intros v; rewrite Hm; discriminate).
  destruct (HB w3 Hcu3) as (a2 & r2 & w4 & Hrun2 & _).
  destruct (resume_alone [q0; D] 1 (K (Redis.Bulk (Some (PyDict d)))) w3) as (n1 & q1 & w4' & Hs1 & Hq1 & Hw4); [cbn; lia|].
  rewrite HD in Hs1. cbn in Hs1. rewrite Hrun2 in Hq1. cbn in Hq1.
  exists n0, n1, (Config [q0; q1] w4'), a1, r1, a2, r2. split.
  - rewrite schedule_app, Hgets, schedule_app, Hs0. exact Hs1.
  - cbn. by rewrite Hq0, Hq1.
Qed.

(** ** Witnesses *)

(** The code of the scenario of the spec, issued, and two token requests
    for it arriving together. *)
Definition double_exchange : config handler_action :=
  start (map handler_of [Exchange scenario_token_request; Exchange scenario_token_request])
    Grants.demo_issued.

(** The store answers the two flows in turn. *)
Definition alternate : list nat := [0; 1; 0; 1; 0; 1; 0; 1; 0; 1].

Lemma demo_issued_code_ttl : Redis.ttl_bounded is_code_key 60 (w_redis Grants.demo_issued).
Proof.
  apply Grants.serve_code_ttl. intros k e _ Hk. cbn in Hk.
  rewrite lookup_empty in Hk. discriminate.
Qed.

Lemma concurrent_code_ttl_witness :
  exists cfg, schedule alternate double_exchange = Some cfg /\
    Redis.ttl_bounded is_code_key 60 (w_redis (cworld cfg)).
Proof.
  eexists. split; [vm_compute; reflexivity|].
  apply (concurrent_code_ttl [Exchange scenario_token_request; Exchange scenario_token_request]
           Grants.demo_issued alternate).
  - exact demo_issued_code_ttl.
  - vm_compute. reflexivity.
Defined.

Lemma concurrent_double_exchange_witness :
  exists n0 n1 cfg a1 r1 a2 r2,
    schedule ([0; 1] ++ repeat 0 n0 ++ repeat 1 n1) double_exchange = Some cfg /\
    map (fun p => option_map answer (finished p)) (threads cfg) =
      [Some (Answer 200 None (Some (AuthorizationProvider.token_dict a1 r1)));
       Some (Answer 200 None (Some (AuthorizationProvider.token_dict a2 r2)))].
Proof.
  apply (concurrent_double_exchange Grants.demo_issued scenario_token_request Grants.demo_post
           Grants.demo_data).
  - vm_compute. reflexivity.
  - vm_compute. reflexivity.
  - vm_compute. reflexivity.
  - intros v. vm_compute. congruence.
Defined.

End Concurrency.
